(** * bandwidth-hero-vercel: the compression planner of [src/compress.js]

    A shallow embedding of [compress], [optimizeAvifParams],
    [applyArtifactReduction] and [sendImage], and the properties of the
    format selection, the tier tables, the HEIF dimension clamp, the
    one-shot fallback and the response metadata.

    Conventions.
    - Image dimensions, sizes and the quality are integers ([Z]).  The
      source compares [width * height] with integer constants only, and a
      double rounds monotonically around those constants, so the
      comparisons agree with the exact product.
    - The filter constants ([0.4], [0.85], ...) are decimal literals; they
      are kept as rationals written with the digits of the source.  They
      are only selected and passed on, never computed with.
    - A [sharp] instance is a mutable builder whose methods record an
      operation and return the instance itself.  It is modelled by the log
      of the calls made on it, in call order.
    - The codec ([metadata], [toBuffer]) and the URL helpers are external;
      they are parameters of the model. *)

From Stdlib Require Import ZArith QArith String Ascii List Bool Lia.
Import ListNotations.

Local Open Scope string_scope.
Local Open Scope Z_scope.

(** ** JavaScript helpers *)

Module JS.

(** [s.includes(sub)] *)
Fixpoint includes (s sub : string) : bool :=
  if String.prefix sub s then true
  else match s with
       | EmptyString => false
       | String _ s' => includes s' sub
       end.

(** [s.split(sep)] for a one-character separator: never empty. *)
Fixpoint split (sep : ascii) (s : string) : list string :=
  match s with
  | EmptyString => [EmptyString]
  | String c s' =>
      if Ascii.eqb c sep then EmptyString :: split sep s'
      else match split sep s' with
           | [] => [String c EmptyString]
           | x :: xs => String c x :: xs
           end
  end.

(** [a.pop()]: the last element, [undefined] on an empty array. *)
Fixpoint pop (a : list string) : option string :=
  match a with
  | [] => None
  | [x] => Some x
  | _ :: xs => pop xs
  end.

(** [x || d] on a possibly undefined string: the empty string is falsy. *)
Definition or_string (x : option string) (d : string) : string :=
  match x with
  | Some EmptyString | None => d
  | Some s => s
  end.

(** [x || d] on a possibly undefined number: [0] is falsy. *)
Definition or_number (x : option Z) (d : Z) : Z :=
  match x with
  | Some n => if n =? 0 then d else n
  | None => d
  end.

(** Truthiness of a possibly undefined number. *)
Definition truthy (x : option Z) : bool :=
  match x with
  | Some n => negb (n =? 0)
  | None => false
  end.

End JS.

(** ** Data *)

Inductive Format := JPEG | AVIF | WEBP.

(** The string the source uses for a format (['jpeg'], ['avif'], ['webp']). *)
Definition formatName (f : Format) : string :=
  match f with
  | JPEG => "jpeg"
  | AVIF => "avif"
  | WEBP => "webp"
  end.

Definition Format_eqb (a b : Format) : bool :=
  match a, b with
  | JPEG, JPEG | AVIF, AVIF | WEBP, WEBP => true
  | _, _ => false
  end.

Definition Buffer := list Byte.byte.

(** What [compress] reads of [sharp(input).metadata()]. *)
Record Metadata := mkMetadata {
  width : Z;
  height : Z;
  pages : option Z
}.

(** [req.params] *)
Module Req.
Record params := mk {
  webp : bool;
  grayscale : bool;
  quality : Z;
  originSize : option Z;
  url : string
}.
End Req.

(** The object returned by [optimizeAvifParams]. *)
Module Avif.
Record params := mk {
  tileRows : Z;
  tileCols : Z;
  minQuantizer : Z;
  maxQuantizer : Z;
  effort : Z
}.
End Avif.

(** The options object given to [toFormat]; a key that is absent or
    [undefined] is [None]. *)
Module Fmt.
Record options := mk {
  quality : option Z;
  alphaQuality : option Z;
  smartSubsample : option bool;
  chromaSubsampling : option string;
  tileRows : option Z;
  tileCols : option Z;
  minQuantizer : option Z;
  maxQuantizer : option Z;
  effort : option Z;
  loop : option Z
}.
End Fmt.

(** One row of [settings] in [applyArtifactReduction]. *)
Record Settings := mkSettings {
  blurRadius : Q;
  denoiseStrength : Q;
  sharpenSigma : Q;
  saturationReduction : Q
}.

(** A method call on a [sharp] instance. *)
Inductive Op :=
| Grayscale
| Modulate (saturation : Q)
| Blur (sigma : Q)
| Sharpen (sigma : Q) (flat jagged : option Q)
| Gamma
| Resize (w h : Z) (fit : string)
| ToFormat (format : Format) (options : Fmt.options).

(** [sharp(input, { animated })] followed by the calls made on it. *)
Record Sharp := mkSharp {
  input : Buffer;
  animated : bool;
  calls : list Op
}.

Definition sharp (i : Buffer) (anim : bool) : Sharp :=
  {| input := i; animated := anim; calls := [] |}.

Definition call (s : Sharp) (o : Op) : Sharp :=
  {| input := input s; animated := animated s; calls := calls s ++ [o] |}.

(** The format and options in force when the instance is encoded: those of
    the last [toFormat]. *)
Fixpoint lastFormat (l : list Op) (acc : option (Format * Fmt.options))
  : option (Format * Fmt.options) :=
  match l with
  | [] => acc
  | ToFormat f o :: l' => lastFormat l' (Some (f, o))
  | _ :: l' => lastFormat l' acc
  end.

Definition formatOut (s : Sharp) : option (Format * Fmt.options) :=
  lastFormat (calls s) None.

(** The resolved value of [toBuffer({ resolveWithObject: true })]. *)
Record Encoded := mkEncoded {
  data : Buffer;
  size : Z
}.

(** What [sendImage] writes on the response. *)
Record Response := mkResponse {
  contentType : string;
  contentLength : Z;
  contentDisposition : string;
  originalSize : Z;
  bytesSavedHeader : Z;
  status : Z;
  body : Buffer
}.

(** How a call of [compress] ends. *)
Inductive Outcome :=
| Sent (r : Response)
| Redirected
| Dropped.

(** ** Constants *)

Record SharpenParams := mkSharpenParams {
  sp_sigma : Q;
  sp_flat : Q;
  sp_jagged : Q
}.

Definition sharpenParams : SharpenParams :=
  {| sp_sigma := 1.0%Q; sp_flat := 1.0%Q; sp_jagged := 0.5%Q |}.

Definition MAX_HEIF_DIMENSION : Z := 16384.

(** ** The planners *)

Definition optimizeAvifParams (width height : Z) : Avif.params :=
  let largeImageThreshold := 2000 in
  let mediumImageThreshold := 1000 in
  if (width >? largeImageThreshold) || (height >? largeImageThreshold) then
    Avif.mk 4 4 30 50 3
  else if (width >? mediumImageThreshold) || (height >? mediumImageThreshold) then
    Avif.mk 2 2 28 48 4
  else
    Avif.mk 1 1 26 48 4.

Module Thresholds.
Definition large : Z := 3000000.
Definition medium : Z := 1000000.
Definition small : Z := 500000.
End Thresholds.

Module SettingsTable.
Definition large : Settings := mkSettings 0.4%Q 0.15%Q 0.8%Q 0.85%Q.
Definition medium : Settings := mkSettings 0.35%Q 0.12%Q 0.6%Q 0.9%Q.
Definition small : Settings := mkSettings 0.3%Q 0.1%Q 0.5%Q 0.95%Q.
End SettingsTable.

(** The conditional chain of [applyArtifactReduction]. *)
Definition selectSettings (pixelCount : Z) : Settings :=
  if pixelCount >? Thresholds.large then SettingsTable.large
  else if pixelCount >? Thresholds.medium then SettingsTable.medium
  else if pixelCount >? Thresholds.small then SettingsTable.small
  else mkSettings 0.3%Q 0.1%Q 0.5%Q 1.0%Q.

(** The chained calls at the end of [applyArtifactReduction], on the
    destructured settings. *)
Definition filterChain (s : Settings) : list Op :=
  let '(mkSettings blurRadius denoiseStrength sharpenSigma saturationReduction) := s in
  [ Modulate saturationReduction;
    Blur blurRadius;
    Sharpen sharpenSigma None None;
    Gamma ].

Definition applyArtifactReduction (sharpInstance : Sharp) (pixelCount : Z) : Sharp :=
  fold_left call (filterChain (selectSettings pixelCount)) sharpInstance.

(** ** [compress]: building the pipeline (lines 18-68) *)

Definition format (req : Req.params) : Format :=
  if Req.webp req then AVIF else JPEG.

Definition pixelCount (m : Metadata) : Z := width m * height m.

(** [pages && pages > 1], read as a condition. *)
Definition isAnimated (m : Metadata) : bool :=
  match pages m with
  | Some p => JS.truthy (Some p) && (p >? 1)
  | None => false
  end.

Definition outputFormat (req : Req.params) (m : Metadata) : Format :=
  if isAnimated m then WEBP else format req.

(** The second argument of the first [toFormat]. *)
Definition formatOptions (req : Req.params) (m : Metadata) : Fmt.options :=
  let outputFormat := outputFormat req m in
  let p := optimizeAvifParams (width m) (height m) in
  let ifAvif (v : Z) := if Format_eqb outputFormat AVIF then Some v else None in
  {| Fmt.quality := Some (Req.quality req);
     Fmt.alphaQuality := Some 80;
     Fmt.smartSubsample := Some true;
     Fmt.chromaSubsampling := Some "4:2:0";
     Fmt.tileRows := ifAvif (Avif.tileRows p);
     Fmt.tileCols := ifAvif (Avif.tileCols p);
     Fmt.minQuantizer := ifAvif (Avif.minQuantizer p);
     Fmt.maxQuantizer := ifAvif (Avif.maxQuantizer p);
     Fmt.effort := ifAvif (Avif.effort p);
     Fmt.loop := if isAnimated m then Some 0 else None |}.

(** The fixed sharpen pass of line 43. *)
Definition fixedSharpen : Op :=
  Sharpen (sp_sigma sharpenParams)
          (Some (sp_flat sharpenParams)) (Some (sp_jagged sharpenParams)).

(** The resize of lines 49-53. *)
Definition heifResize (m : Metadata) : Op :=
  Resize (Z.min (width m) MAX_HEIF_DIMENSION)
         (Z.min (height m) MAX_HEIF_DIMENSION) "inside".

(** [sharpInstance] when it reaches the inner [try] (line 70). *)
Definition pipeline (req : Req.params) (m : Metadata) (input : Buffer) : Sharp :=
  let outputFormat := outputFormat req m in
  let sharpInstance := sharp input (isAnimated m) in
  let sharpInstance :=
    if Req.grayscale req then call sharpInstance Grayscale else sharpInstance in
  let sharpInstance :=
    if negb (isAnimated m) then
      let sharpInstance :=
        if Format_eqb outputFormat JPEG || Format_eqb outputFormat AVIF
        then applyArtifactReduction sharpInstance (pixelCount m)
        else sharpInstance in
      if pixelCount m >? 500000
      then call sharpInstance fixedSharpen
      else sharpInstance
    else sharpInstance in
  let sharpInstance :=
    if Format_eqb outputFormat AVIF
       && ((width m >? MAX_HEIF_DIMENSION) || (height m >? MAX_HEIF_DIMENSION))
    then call sharpInstance (heifResize m)
    else sharpInstance in
  call sharpInstance (ToFormat outputFormat (formatOptions req m)).

(** ** [compress]: the fallback (lines 83-84) *)

Definition fallbackFormat (m : Metadata) : Format :=
  if isAnimated m then WEBP else JPEG.

(** [{ quality: compressionQuality }] *)
Definition fallbackOptions (req : Req.params) : Fmt.options :=
  {| Fmt.quality := Some (Req.quality req);
     Fmt.alphaQuality := None;
     Fmt.smartSubsample := None;
     Fmt.chromaSubsampling := None;
     Fmt.tileRows := None;
     Fmt.tileCols := None;
     Fmt.minQuantizer := None;
     Fmt.maxQuantizer := None;
     Fmt.effort := None;
     Fmt.loop := None |}.

(** The fallback calls [toFormat] on the instance that has just failed. *)
Definition fallback (req : Req.params) (m : Metadata) (sharpInstance : Sharp) : Sharp :=
  call sharpInstance (ToFormat (fallbackFormat m) (fallbackOptions req)).

(** ** Errors and effects *)

(** A call either returns or throws an error with a message. *)
Inductive Result (A : Type) :=
| Ok (a : A)
| Throw (message : string).
Arguments Ok {A} a.
Arguments Throw {A} message.

(** Computations of [compress]: they may throw, and they log every
    instance whose [toBuffer] was awaited.  The log is kept across a
    [catch]. *)
Definition M (A : Type) : Type := list Sharp -> Result A * list Sharp.

Definition ret {A} (a : A) : M A := fun log => (Ok a, log).

Definition throw {A} (message : string) : M A := fun log => (Throw message, log).

Definition lift {A} (r : Result A) : M A := fun log => (r, log).

Definition bind {A B} (c : M A) (k : A -> M B) : M B :=
  fun log =>
    match c log with
    | (Ok a, log') => k a log'
    | (Throw e, log') => (Throw e, log')
    end.

Definition tryCatch {A} (c : M A) (handler : string -> M A) : M A :=
  fun log =>
    match c log with
    | (Ok a, log') => (Ok a, log')
    | (Throw e, log') => handler e log'
    end.

Declare Scope js_scope.
Delimit Scope js_scope with js.
Notation "x <- c ;; k" := (bind c (fun x => k))
  (at level 61, c at next level, right associativity) : js_scope.

Definition dquote : string := String (ascii_of_nat 34) EmptyString.

(** [Math.max((originSize || 0) - compressedSize, 0)] *)
Definition bytesSaved (originSize : option Z) (compressedSize : Z) : Z :=
  Z.max (JS.or_number originSize 0 - compressedSize) 0.

Definition HEIF_MESSAGE : string := "too large for the HEIF format".

Section Compress.

(** The codec: [sharp(input).metadata()] and
    [sharpInstance.toBuffer({ resolveWithObject: true })].  The two
    encodes of one request are made on different call logs, so a function
    of the instance can answer them differently. *)
Variable metadata : Buffer -> Result Metadata.
Variable toBuffer : Sharp -> Result Encoded.

(** [new URL(url).pathname] and [encodeURIComponent]; both can throw. *)
Variable pathname : string -> Result string.
Variable encodeURIComponent : string -> Result string.

Definition awaitToBuffer (s : Sharp) : M Encoded :=
  fun log => (toBuffer s, (log ++ [s])%list).

(** [sendImage]; the header writes are taken to succeed. *)
Definition sendImage (data : Buffer) (imgFormat : Format) (url : string)
           (originSize : option Z) (compressedSize : Z) : Result Response :=
  match pathname url with
  | Throw e => Throw e
  | Ok p =>
      match encodeURIComponent
              (JS.or_string (JS.pop (JS.split "/" p)) "image") with
      | Throw e => Throw e
      | Ok name =>
          let filename := name ++ "." ++ formatName imgFormat in
          Ok {| contentType := "image/" ++ formatName imgFormat;
                contentLength := Z.of_nat (List.length data);
                contentDisposition :=
                  "inline; filename=" ++ dquote ++ filename ++ dquote;
                originalSize := JS.or_number originSize 0;
                bytesSavedHeader := bytesSaved originSize compressedSize;
                status := 200;
                body := data |}
      end
  end.

Local Open Scope js_scope.

(** Lines 82-87: the branch taken on the HEIF size error. *)
Definition fallbackEncode (req : Req.params) (m : Metadata) (sharpInstance : Sharp)
  : M Outcome :=
  let outputFormat := fallbackFormat m in
  let sharpInstance := fallback req m sharpInstance in
  out <- awaitToBuffer sharpInstance ;;
  r <- lift (sendImage (data out) outputFormat (Req.url req)
                       (Req.originSize req) (size out)) ;;
  ret (Sent r).

(** [compress(req, res, input)]; [headersSent] is [res.headersSent] when
    the first encode resolves. *)
Definition compress (req : Req.params) (headersSent : bool) (input : Buffer)
  : M Outcome :=
  tryCatch
    (m <- lift (metadata input) ;;
     let sharpInstance := pipeline req m input in
     tryCatch
       (out <- awaitToBuffer sharpInstance ;;
        if headersSent then ret Dropped
        else
          r <- lift (sendImage (data out) (outputFormat req m) (Req.url req)
                               (Req.originSize req) (size out)) ;;
          ret (Sent r))
       (fun heifError =>
          if JS.includes heifError HEIF_MESSAGE
          then fallbackEncode req m sharpInstance
          else throw heifError))
    (fun err => ret Redirected).

(** One request, from an empty log. *)
Definition run (req : Req.params) (headersSent : bool) (input : Buffer)
  : Result Outcome * list Sharp :=
  compress req headersSent input [].

(** The instances handed to the encoder, in order. *)
Definition attempts (req : Req.params) (headersSent : bool) (input : Buffer)
  : list Sharp :=
  snd (run req headersSent input).

End Compress.

(** ** Reading a pipeline *)

(** The artifact-reduction and sharpening calls of a log. *)
Definition isFilter (o : Op) : bool :=
  match o with
  | Modulate _ | Blur _ | Sharpen _ _ _ | Gamma => true
  | _ => false
  end.

Definition filters (l : list Op) : list Op := List.filter isFilter l.

(** The resize requests of a log: box width, box height and fit mode. *)
Fixpoint resizes (l : list Op) : list (Z * Z * string) :=
  match l with
  | [] => []
  | Resize w h fit :: l' => (w, h, fit) :: resizes l'
  | _ :: l' => resizes l'
  end.

(** What the encoder is asked for, apart from the image bytes. *)
Definition plan (s : Sharp) : bool * list Op := (animated s, calls s).

(** The size of a [w] x [h] image after [resize] into the box [bw] x [bh]
    with [fit: 'inside']: the side that needs the larger shrink fills its
    box side, the other side follows the aspect ratio, rounded to the
    nearest pixel.  This is the codec's rule, used for the worked example
    only. *)
Definition roundDiv (a b : Z) : Z := (2 * a + b) / (2 * b).

Definition fitInside (w h bw bh : Z) : Z * Z :=
  if w * bh >=? h * bw
  then (bw, roundDiv (h * bw) w)
  else (roundDiv (w * bh) h, bh).

(** The stages of [pipeline], each as the calls it adds. *)
Definition grayscaleStage (req : Req.params) : list Op :=
  if Req.grayscale req then [Grayscale] else [].

Definition artifactStage (req : Req.params) (m : Metadata) : list Op :=
  if negb (isAnimated m)
     && (Format_eqb (outputFormat req m) JPEG || Format_eqb (outputFormat req m) AVIF)
  then filterChain (selectSettings (pixelCount m)) else [].

Definition sharpenStage (m : Metadata) : list Op :=
  if negb (isAnimated m) && (pixelCount m >? 500000) then [fixedSharpen] else [].

Definition resizeStage (req : Req.params) (m : Metadata) : list Op :=
  if Format_eqb (outputFormat req m) AVIF
     && ((width m >? MAX_HEIF_DIMENSION) || (height m >? MAX_HEIF_DIMENSION))
  then [heifResize m] else [].

(** ** The tables as the specification words them *)

Module Spec.

(** An ordered decision table: rows of (threshold, result), read from the
    top; the first row whose threshold the key exceeds wins. *)
Fixpoint firstMatch {A : Type} (rows : list (Z * A)) (otherwise : A) (key : Z) : A :=
  match rows with
  | [] => otherwise
  | (threshold, result) :: rows' =>
      if key >? threshold then result else firstMatch rows' otherwise key
  end.

Definition artifactRows : list (Z * Settings) :=
  [ (3000000, mkSettings 0.40%Q 0.15%Q 0.80%Q 0.85%Q);
    (1000000, mkSettings 0.35%Q 0.12%Q 0.60%Q 0.90%Q);
    (500000,  mkSettings 0.30%Q 0.10%Q 0.50%Q 0.95%Q) ].

Definition artifactLowest : Settings :=
  mkSettings 0.30%Q 0.10%Q 0.50%Q 1.00%Q.

Definition artifactTier (pixelCount : Z) : Settings :=
  firstMatch artifactRows artifactLowest pixelCount.

Definition avifRows : list (Z * Avif.params) :=
  [ (2000, Avif.mk 4 4 30 50 3);
    (1000, Avif.mk 2 2 28 48 4) ].

Definition avifLowest : Avif.params := Avif.mk 1 1 26 48 4.

Definition avifTier (width height : Z) : Avif.params :=
  firstMatch avifRows avifLowest (Z.max width height).

(** [frameCount]: an image without a page count has one frame. *)
Definition frameCount (m : Metadata) : Z :=
  match pages m with
  | Some p => p
  | None => 1
  end.

Definition selectFormat (requestedModernFormat animatedImage : bool) : Format :=
  if animatedImage then WEBP
  else if requestedModernFormat then AVIF else JPEG.

End Spec.

(** Two settings with the same numbers, whatever digits they were written
    with ([0.4] and [0.40]). *)
Definition Settings_eq (s t : Settings) : Prop :=
  (blurRadius s == blurRadius t)%Q /\
  (denoiseStrength s == denoiseStrength t)%Q /\
  (sharpenSigma s == sharpenSigma t)%Q /\
  (saturationReduction s == saturationReduction t)%Q.

(** ** Counting calls *)

Definition isSharpen (o : Op) : bool :=
  match o with
  | Sharpen _ _ _ => true
  | _ => false
  end.

(** The number of [sharpen] calls of a log. *)
Definition sharpenCount (l : list Op) : nat :=
  List.length (List.filter isSharpen l).

(** The name [sendImage] gives to [encodeURIComponent]: the last path
    segment, or ['image']. *)
Definition fileStem (p : string) : string :=
  JS.or_string (JS.pop (JS.split "/" p)) "image".

(** ** Concrete environments *)

Module Example.

Definition heifError : string :=
  "Processed image is too large for the HEIF format".

Definition otherError : string :=
  "Input buffer contains unsupported image format".

Definition encoded : Encoded :=
  {| data := [Byte.xff; Byte.xd8; Byte.xff]; size := 1500 |}.

Definition metadataOf (m : Metadata) : Buffer -> Result Metadata :=
  fun _ => Ok m.

Definition corrupt : Buffer -> Result Metadata :=
  fun _ => Throw otherError.

(** A codec that rejects every AVIF encode with the HEIF size error. *)
Definition heifRejects : Sharp -> Result Encoded :=
  fun s =>
    match formatOut s with
    | Some (AVIF, _) => Throw heifError
    | _ => Ok encoded
    end.

Definition alwaysTooLarge : Sharp -> Result Encoded :=
  fun _ => Throw heifError.

Definition alwaysFails : Sharp -> Result Encoded :=
  fun _ => Throw otherError.

Definition alwaysEncodes : Sharp -> Result Encoded :=
  fun _ => Ok encoded.

Definition pathnameOf : string -> Result string :=
  fun _ => Ok "/photos/cat.png".

Definition encodeURIComponent : string -> Result string :=
  fun s => Ok s.

(** [webp] requested, colour, quality 80. *)
Definition request : Req.params :=
  Req.mk true false 80 (Some 1000) "https://example.org/photos/cat.png".

Definition megapixel : Metadata := mkMetadata 1000 1000 None.
Definition oversize : Metadata := mkMetadata 20000 10000 None.
Definition gif : Metadata := mkMetadata 640 480 (Some 12).

Definition bytes : Buffer := [Byte.x89; Byte.x50].

Definition invalidUrl : string -> Result string :=
  fun _ => Throw "Invalid URL".

(** JPEG requested, grayscale, quality 60, no origin size. *)
Definition grayRequest : Req.params :=
  Req.mk false true 60 None "https://example.org/a/".

Definition thumbnail : Metadata := mkMetadata 640 480 None.

End Example.

(** ** Lemmas on logs and pipelines *)

Lemma Format_eqb_spec (a b : Format) : reflect (a = b) (Format_eqb a b).
Proof. destruct a, b; simpl; constructor; congruence. Qed.

Lemma calls_fold_call (l : list Op) (s : Sharp) :
  calls (fold_left call l s) = (calls s ++ l)%list.
Proof.
  revert s; induction l as [|o l IH]; intros s; simpl.
  - now rewrite app_nil_r.
  - rewrite IH; simpl. now rewrite <- app_assoc.
Qed.

Lemma input_fold_call (l : list Op) (s : Sharp) :
  input (fold_left call l s) = input s.
Proof. revert s; induction l as [|o l IH]; intros s; simpl; [|rewrite IH]; reflexivity. Qed.

Lemma animated_fold_call (l : list Op) (s : Sharp) :
  animated (fold_left call l s) = animated s.
Proof. revert s; induction l as [|o l IH]; intros s; simpl; [|rewrite IH]; reflexivity. Qed.

Lemma calls_applyArtifactReduction (s : Sharp) (p : Z) :
  calls (applyArtifactReduction s p) = (calls s ++ filterChain (selectSettings p))%list.
Proof. apply calls_fold_call. Qed.

Lemma calls_pipeline (req : Req.params) (m : Metadata) (i : Buffer) :
  calls (pipeline req m i) =
  (grayscaleStage req ++ artifactStage req m ++ sharpenStage m
     ++ resizeStage req m
     ++ [ToFormat (outputFormat req m) (formatOptions req m)])%list.
Proof.
  unfold pipeline, grayscaleStage, artifactStage, sharpenStage, resizeStage.
  destruct (Req.grayscale req), (isAnimated m); simpl;
    destruct (Format_eqb (outputFormat req m) JPEG),
             (Format_eqb (outputFormat req m) AVIF),
             (pixelCount m >? 500000),
             ((width m >? MAX_HEIF_DIMENSION) || (height m >? MAX_HEIF_DIMENSION));
    simpl; rewrite ?calls_applyArtifactReduction; simpl;
    rewrite <- ?app_assoc; reflexivity.
Qed.

Lemma animated_pipeline (req : Req.params) (m : Metadata) (i : Buffer) :
  animated (pipeline req m i) = isAnimated m.
Proof.
  unfold pipeline, applyArtifactReduction.
  repeat match goal with
         | |- context [if ?b then _ else _] => destruct b
         end; simpl; rewrite ?animated_fold_call; reflexivity.
Qed.

Lemma input_pipeline (req : Req.params) (m : Metadata) (i : Buffer) :
  input (pipeline req m i) = i.
Proof.
  unfold pipeline, applyArtifactReduction.
  repeat match goal with
         | |- context [if ?b then _ else _] => destruct b
         end; simpl; rewrite ?input_fold_call; reflexivity.
Qed.

Lemma lastFormat_app (l l' : list Op) (acc : option (Format * Fmt.options)) :
  lastFormat (l ++ l') acc = lastFormat l' (lastFormat l acc).
Proof.
  revert acc; induction l as [|o l IH]; intros acc; simpl; [reflexivity|].
  destruct o; apply IH.
Qed.

Lemma formatOut_call_toFormat (s : Sharp) (f : Format) (o : Fmt.options) :
  formatOut (call s (ToFormat f o)) = Some (f, o).
Proof. unfold formatOut, call; simpl. now rewrite lastFormat_app. Qed.

Lemma resizes_app (l l' : list Op) :
  resizes (l ++ l') = (resizes l ++ resizes l')%list.
Proof.
  induction l as [|o l IH]; simpl; [reflexivity|].
  destruct o; simpl; now rewrite IH.
Qed.

Lemma filters_app (l l' : list Op) :
  filters (l ++ l') = (filters l ++ filters l')%list.
Proof. apply filter_app. Qed.

Lemma resizes_filterChain (s : Settings) : resizes (filterChain s) = [].
Proof. destruct s; reflexivity. Qed.

Lemma filters_pipeline (req : Req.params) (m : Metadata) (i : Buffer) :
  filters (calls (pipeline req m i)) = (artifactStage req m ++ sharpenStage m)%list.
Proof.
  rewrite calls_pipeline, !filters_app.
  unfold grayscaleStage, artifactStage, sharpenStage, resizeStage, heifResize.
  destruct (Req.grayscale req), (negb (isAnimated m)),
    (Format_eqb (outputFormat req m) JPEG || Format_eqb (outputFormat req m) AVIF),
    (pixelCount m >? 500000),
    (Format_eqb (outputFormat req m) AVIF
       && ((width m >? MAX_HEIF_DIMENSION) || (height m >? MAX_HEIF_DIMENSION)));
    simpl; try destruct (selectSettings (pixelCount m)); reflexivity.
Qed.

Lemma resizes_pipeline (req : Req.params) (m : Metadata) (i : Buffer) :
  resizes (calls (pipeline req m i)) = resizes (resizeStage req m).
Proof.
  rewrite calls_pipeline, !resizes_app.
  unfold grayscaleStage, artifactStage, sharpenStage.
  destruct (Req.grayscale req), (negb (isAnimated m)),
    (Format_eqb (outputFormat req m) JPEG || Format_eqb (outputFormat req m) AVIF),
    (pixelCount m >? 500000);
    simpl; rewrite ?resizes_filterChain, ?app_nil_r; reflexivity.
Qed.

(** ** The control flow of [compress] *)

Section Runs.

Variable metadata : Buffer -> Result Metadata.
Variable toBuffer : Sharp -> Result Encoded.
Variable pathname : string -> Result string.
Variable encodeURIComponent : string -> Result string.
Variable req : Req.params.
Variable headersSent : bool.
Variable input : Buffer.

Local Abbreviation theRun :=
  (run metadata toBuffer pathname encodeURIComponent req headersSent input).

Ltac unfold_run :=
  unfold run, compress, fallbackEncode, tryCatch, bind, lift, awaitToBuffer,
    ret, throw.

Ltac split_paths :=
  repeat (simpl;
          match goal with
          | |- context [match metadata ?i with _ => _ end] =>
              destruct (metadata i)
          | |- context [match toBuffer ?s with _ => _ end] =>
              destruct (toBuffer s)
          | |- context [if headersSent then _ else _] =>
              destruct headersSent
          | |- context [match sendImage ?a ?b ?c ?d ?e ?f ?g with _ => _ end] =>
              destruct (sendImage a b c d e f g)
          | |- context [if JS.includes ?e ?h then _ else _] =>
              destruct (JS.includes e h)
          end).

Lemma run_decode_failure (e : string) :
  metadata input = Throw e -> theRun = (Ok Redirected, []).
Proof. intros Hm. unfold_run. now rewrite Hm. Qed.

Lemma run_capacity (m : Metadata) (e : string) :
  metadata input = Ok m ->
  toBuffer (pipeline req m input) = Throw e ->
  JS.includes e HEIF_MESSAGE = true ->
  snd theRun = [pipeline req m input; fallback req m (pipeline req m input)].
Proof.
  intros Hm He Hc. unfold_run. rewrite Hm. cbv zeta. rewrite He, Hc.
  split_paths; reflexivity.
Qed.

Lemma run_capacity_twice (m : Metadata) (e e' : string) :
  metadata input = Ok m ->
  toBuffer (pipeline req m input) = Throw e ->
  JS.includes e HEIF_MESSAGE = true ->
  toBuffer (fallback req m (pipeline req m input)) = Throw e' ->
  theRun = (Ok Redirected,
            [pipeline req m input; fallback req m (pipeline req m input)]).
Proof.
  intros Hm He Hc He'. unfold_run. rewrite Hm. cbv zeta.
  now rewrite He, Hc, He'.
Qed.

Lemma run_other_failure (m : Metadata) (e : string) :
  metadata input = Ok m ->
  toBuffer (pipeline req m input) = Throw e ->
  JS.includes e HEIF_MESSAGE = false ->
  theRun = (Ok Redirected, [pipeline req m input]).
Proof.
  intros Hm He Hc. unfold_run. rewrite Hm. cbv zeta. now rewrite He, Hc.
Qed.

Lemma run_success (m : Metadata) (out : Encoded) (r : Response) :
  metadata input = Ok m ->
  toBuffer (pipeline req m input) = Ok out ->
  headersSent = false ->
  sendImage pathname encodeURIComponent (data out) (outputFormat req m)
            (Req.url req) (Req.originSize req) (size out) = Ok r ->
  theRun = (Ok (Sent r), [pipeline req m input]).
Proof.
  intros Hm Ho Hs Hr. unfold_run. rewrite Hm. cbv zeta.
  now rewrite Ho, Hs, Hr.
Qed.

Lemma run_attempts_bound : (List.length (snd theRun) <= 2)%nat.
Proof. unfold_run. split_paths; simpl; lia. Qed.

Lemma run_returns : exists o, fst theRun = Ok o.
Proof. unfold_run. split_paths; simpl; eauto. Qed.

(** Whatever the codec answers, an attempt is the planned pipeline or its
    fallback. *)
Lemma run_attempts_shape (m : Metadata) :
  metadata input = Ok m ->
  snd theRun = [pipeline req m input] \/
  snd theRun = [pipeline req m input; fallback req m (pipeline req m input)].
Proof.
  intros Hm. unfold_run. rewrite Hm. cbv zeta.
  split_paths; simpl; auto.
Qed.

End Runs.

(** ** The fallback *)

(** C1, as amended.  When the first encode fails with the HEIF size error,
    a second encode follows; its output format is WEBP for an animated
    image and JPEG otherwise, and its format options hold the quality and
    nothing else (no AVIF tuning, no alpha quality, subsampling or loop).
    The second encode is made on the instance of the first: the calls
    already recorded stay, so the artifact-reduction filters and the fixed
    sharpen pass of the first attempt are applied again. *)
Theorem fallback_retargets_the_pipeline :
  forall metadata toBuffer pathname encodeURIComponent req headersSent input m e,
    metadata input = Ok m ->
    toBuffer (pipeline req m input) = Throw e ->
    JS.includes e HEIF_MESSAGE = true ->
    let first := pipeline req m input in
    let second := fallback req m first in
    attempts metadata toBuffer pathname encodeURIComponent req headersSent input
      = [first; second] /\
    formatOut second
      = Some (if isAnimated m then WEBP else JPEG, fallbackOptions req) /\
    fallbackOptions req
      = Fmt.mk (Some (Req.quality req)) None None None None None None None None None /\
    calls second
      = (calls first ++ [ToFormat (fallbackFormat m) (fallbackOptions req)])%list /\
    filters (calls second) = filters (calls first) /\
    filters (calls first) = (artifactStage req m ++ sharpenStage m)%list.
Proof.
  intros metadata toBuffer pathname encodeURIComponent req headersSent input m e
         Hm He Hc first second.
  repeat split.
  - unfold attempts. exact (run_capacity _ _ _ _ _ _ _ m e Hm He Hc).
  - unfold second, fallback. rewrite formatOut_call_toFormat. reflexivity.
  - unfold second, fallback, call; simpl. rewrite filters_app; simpl.
    now rewrite app_nil_r.
  - apply filters_pipeline.
Qed.

Lemma fallback_retargets_the_pipeline_witness :
  Example.metadataOf Example.megapixel Example.bytes = Ok Example.megapixel /\
  Example.heifRejects (pipeline Example.request Example.megapixel Example.bytes)
    = Throw Example.heifError /\
  JS.includes Example.heifError HEIF_MESSAGE = true /\
  filters (calls (fallback Example.request Example.megapixel
                    (pipeline Example.request Example.megapixel Example.bytes)))
  = filters (calls (pipeline Example.request Example.megapixel Example.bytes)).
Proof.
  split; [reflexivity|]. split; [reflexivity|]. split; [reflexivity|].
  apply (fallback_retargets_the_pipeline
           (Example.metadataOf Example.megapixel) Example.heifRejects
           Example.pathnameOf Example.encodeURIComponent
           Example.request false Example.bytes Example.megapixel Example.heifError);
    reflexivity.
Defined.

(** C1 as worded fails: for a static 1000 x 1000 image requested as AVIF
    whose first encode is rejected with the HEIF size error, the second
    encode (JPEG, quality only) still carries the four artifact-reduction
    calls and the fixed sharpen pass. *)
Lemma fallback_drops_filters_counterexample :
  ~ (forall m e second,
       Example.metadataOf Example.megapixel Example.bytes = Ok m ->
       Example.heifRejects (pipeline Example.request m Example.bytes) = Throw e ->
       JS.includes e HEIF_MESSAGE = true ->
       nth_error
         (attempts (Example.metadataOf Example.megapixel) Example.heifRejects
                   Example.pathnameOf Example.encodeURIComponent
                   Example.request false Example.bytes) 1 = Some second ->
       formatOut second = Some (fallbackFormat m, fallbackOptions Example.request) /\
       filters (calls second) = []).
Proof.
  intros H.
  specialize (H Example.megapixel Example.heifError
                (fallback Example.request Example.megapixel
                   (pipeline Example.request Example.megapixel Example.bytes))
                eq_refl eq_refl eq_refl eq_refl).
  destruct H as [_ H]. vm_compute in H. discriminate H.
Qed.

(** ** The number of encode attempts *)

(** C2.  A request makes at most two encode attempts and [compress] always
    returns.  The HEIF size error on the first attempt is followed by
    exactly one more attempt, on the fallback pipeline; any failure of that
    second attempt, and any other failure of the first, ends in the
    redirect to the origin without a further attempt. *)
Theorem compress_at_most_two_attempts :
  forall metadata toBuffer pathname encodeURIComponent req headersSent input,
    let theRun :=
      run metadata toBuffer pathname encodeURIComponent req headersSent input in
    (List.length (snd theRun) <= 2)%nat /\
    (exists o, fst theRun = Ok o) /\
    (forall m e,
        metadata input = Ok m ->
        toBuffer (pipeline req m input) = Throw e ->
        JS.includes e HEIF_MESSAGE = true ->
        snd theRun = [pipeline req m input; fallback req m (pipeline req m input)]) /\
    (forall m e e',
        metadata input = Ok m ->
        toBuffer (pipeline req m input) = Throw e ->
        JS.includes e HEIF_MESSAGE = true ->
        toBuffer (fallback req m (pipeline req m input)) = Throw e' ->
        theRun = (Ok Redirected,
                  [pipeline req m input; fallback req m (pipeline req m input)])) /\
    (forall m e,
        metadata input = Ok m ->
        toBuffer (pipeline req m input) = Throw e ->
        JS.includes e HEIF_MESSAGE = false ->
        theRun = (Ok Redirected, [pipeline req m input])).
Proof.
  intros metadata toBuffer pathname encodeURIComponent req headersSent input theRun.
  split; [apply run_attempts_bound|].
  split; [apply run_returns|].
  split; [intros m e; apply run_capacity|].
  split; [intros m e e'; apply run_capacity_twice|].
  intros m e; apply run_other_failure.
Qed.

Lemma compress_at_most_two_attempts_witness :
  (Example.metadataOf Example.megapixel Example.bytes = Ok Example.megapixel /\
   Example.alwaysTooLarge (pipeline Example.request Example.megapixel Example.bytes)
     = Throw Example.heifError /\
   JS.includes Example.heifError HEIF_MESSAGE = true /\
   Example.alwaysTooLarge
     (fallback Example.request Example.megapixel
        (pipeline Example.request Example.megapixel Example.bytes))
     = Throw Example.heifError) /\
  run (Example.metadataOf Example.megapixel) Example.alwaysTooLarge
      Example.pathnameOf Example.encodeURIComponent
      Example.request false Example.bytes
  = (Ok Redirected,
     [pipeline Example.request Example.megapixel Example.bytes;
      fallback Example.request Example.megapixel
        (pipeline Example.request Example.megapixel Example.bytes)]) /\
  (Example.alwaysFails (pipeline Example.request Example.megapixel Example.bytes)
     = Throw Example.otherError /\
   JS.includes Example.otherError HEIF_MESSAGE = false) /\
  run (Example.metadataOf Example.megapixel) Example.alwaysFails
      Example.pathnameOf Example.encodeURIComponent
      Example.request false Example.bytes
  = (Ok Redirected, [pipeline Example.request Example.megapixel Example.bytes]).
Proof.
  split; [repeat split; reflexivity|].
  split.
  - apply (proj1 (proj2 (proj2 (proj2
      (compress_at_most_two_attempts
         (Example.metadataOf Example.megapixel) Example.alwaysTooLarge
         Example.pathnameOf Example.encodeURIComponent
         Example.request false Example.bytes))))
      Example.megapixel Example.heifError Example.heifError);
      reflexivity.
  - split; [split; reflexivity|].
    apply (proj2 (proj2 (proj2 (proj2
      (compress_at_most_two_attempts
         (Example.metadataOf Example.megapixel) Example.alwaysFails
         Example.pathnameOf Example.encodeURIComponent
         Example.request false Example.bytes))))
      Example.megapixel Example.otherError);
      reflexivity.
Defined.

(** ** Format selection *)

Lemma isAnimated_frameCount (m : Metadata) :
  isAnimated m = (Spec.frameCount m >? 1).
Proof.
  unfold isAnimated, Spec.frameCount, JS.truthy.
  destruct (pages m) as [p|]; [|reflexivity].
  destruct (Z.eqb_spec p 0) as [->|_]; reflexivity.
Qed.

(** C3.  The output format is WEBP whenever the image has more than one
    frame, whatever the client requested; for a single-frame image it is
    AVIF when the modern format was requested and JPEG otherwise.  It is
    the format of the [toFormat] call of the pipeline. *)
Theorem outputFormat_selection :
  forall req m input,
    isAnimated m = (Spec.frameCount m >? 1) /\
    outputFormat req m
      = (if Spec.frameCount m >? 1 then WEBP
         else if Req.webp req then AVIF else JPEG) /\
    outputFormat req m = Spec.selectFormat (Req.webp req) (isAnimated m) /\
    formatOut (pipeline req m input) = Some (outputFormat req m, formatOptions req m).
Proof.
  intros req m input.
  split; [apply isAnimated_frameCount|].
  split; [unfold outputFormat, format; now rewrite isAnimated_frameCount|].
  split; [reflexivity|].
  unfold formatOut. rewrite calls_pipeline, !lastFormat_app. reflexivity.
Qed.

(** ** The HEIF dimension clamp *)

Lemma resizes_resizeStage (req : Req.params) (m : Metadata) :
  resizes (resizeStage req m) =
  if Format_eqb (outputFormat req m) AVIF
     && ((width m >? 16384) || (height m >? 16384))
  then [(Z.min (width m) 16384, Z.min (height m) 16384, "inside")]
  else [].
Proof.
  unfold resizeStage, heifResize, MAX_HEIF_DIMENSION.
  destruct (Format_eqb (outputFormat req m) AVIF
            && ((width m >? 16384) || (height m >? 16384))); reflexivity.
Qed.

Lemma calls_fallback (req : Req.params) (m : Metadata) (s : Sharp) :
  calls (fallback req m s)
  = (calls s ++ [ToFormat (fallbackFormat m) (fallbackOptions req)])%list.
Proof. reflexivity. Qed.

Lemma resizes_fallback (req : Req.params) (m : Metadata) (s : Sharp) :
  resizes (calls (fallback req m s)) = resizes (calls s).
Proof.
  unfold fallback, call; simpl. rewrite resizes_app; simpl. apply app_nil_r.
Qed.

(** C4, as amended.  In the pipeline of the first attempt a resize is
    present exactly when the output format is AVIF and the width or the
    height exceeds 16384; it then asks for the box min(width, 16384) x
    min(height, 16384) with fit mode inside, and a first attempt in JPEG or
    WEBP has no resize.  For 20000 x 10000 the box is 16384 x 10000, which
    fitting inside turns into 16384 x 8192.  The fallback attempt keeps
    the resize of the first attempt. *)
Theorem resize_only_when_avif_oversize :
  forall req m input,
    let first := pipeline req m input in
    resizes (calls first)
      = (if Format_eqb (outputFormat req m) AVIF
            && ((width m >? 16384) || (height m >? 16384))
         then [(Z.min (width m) 16384, Z.min (height m) 16384, "inside")]
         else []) /\
    (resizes (calls first) <> [] <->
     outputFormat req m = AVIF /\ (width m > 16384 \/ height m > 16384)) /\
    resizes (calls (fallback req m first)) = resizes (calls first) /\
    resizes (calls (pipeline Example.request Example.oversize input))
      = [(16384, 10000, "inside")] /\
    fitInside 20000 10000 16384 10000 = (16384, 8192).
Proof.
  intros req m input first.
  assert (E : resizes (calls first)
              = (if Format_eqb (outputFormat req m) AVIF
                    && ((width m >? 16384) || (height m >? 16384))
                 then [(Z.min (width m) 16384, Z.min (height m) 16384, "inside")]
                 else []))
    by (unfold first; rewrite resizes_pipeline; apply resizes_resizeStage).
  split; [exact E|].
  split.
  - rewrite E.
    destruct (Format_eqb_spec (outputFormat req m) AVIF) as [Hf|Hf];
      destruct (Z.gtb_spec (width m) 16384) as [Hw|Hw];
      destruct (Z.gtb_spec (height m) 16384) as [Hh|Hh]; simpl;
      split; intros Hyp;
      try (split; [assumption|lia]); try discriminate;
      try (exfalso; now apply Hyp);
      destruct Hyp as [Hfmt Hdim]; try contradiction; lia.
  - split; [apply resizes_fallback|].
    split; reflexivity.
Qed.

(** C4 as worded fails on the fallback: a static 20000 x 10000 image
    requested as AVIF whose first encode is rejected with the HEIF size
    error is encoded again as JPEG with the resize still in place. *)
Lemma resize_on_jpeg_fallback_counterexample :
  ~ (forall s,
       In s (attempts (Example.metadataOf Example.oversize) Example.heifRejects
                      Example.pathnameOf Example.encodeURIComponent
                      Example.request false Example.bytes) ->
       (resizes (calls s) <> [] <->
        (exists o, formatOut s = Some (AVIF, o)) /\
        (width Example.oversize > 16384 \/ height Example.oversize > 16384))).
Proof.
  intros H.
  specialize (H (fallback Example.request Example.oversize
                   (pipeline Example.request Example.oversize Example.bytes))).
  assert (Hin : In (fallback Example.request Example.oversize
                      (pipeline Example.request Example.oversize Example.bytes))
                   (attempts (Example.metadataOf Example.oversize) Example.heifRejects
                      Example.pathnameOf Example.encodeURIComponent
                      Example.request false Example.bytes))
    by (right; left; reflexivity).
  destruct (H Hin) as [Hresize _].
  destruct Hresize as [[o Ho] _].
  - vm_compute; discriminate.
  - vm_compute in Ho. discriminate Ho.
Qed.

(** ** The artifact-reduction tiers *)

Lemma selectSettings_ranges (p : Z) :
  (3000000 < p /\ selectSettings p = SettingsTable.large) \/
  (1000000 < p <= 3000000 /\ selectSettings p = SettingsTable.medium) \/
  (500000 < p <= 1000000 /\ selectSettings p = SettingsTable.small) \/
  (p <= 500000 /\ selectSettings p = mkSettings 0.3%Q 0.1%Q 0.5%Q 1.0%Q).
Proof.
  unfold selectSettings, Thresholds.large, Thresholds.medium, Thresholds.small.
  destruct (Z.gtb_spec p 3000000) as [Hl|Hl]; [left; split; [lia|reflexivity]|].
  destruct (Z.gtb_spec p 1000000) as [Hm|Hm];
    [right; left; split; [lia|reflexivity]|].
  destruct (Z.gtb_spec p 500000) as [Hs|Hs];
    [right; right; left; split; [lia|reflexivity]|].
  right; right; right; split; [lia|reflexivity].
Qed.

(** C5.  For every pixel count the settings chosen are those of the table
    read from the largest threshold down (3,000,000, 1,000,000, 500,000),
    the first row exceeded winning: 4,000,000 pixels give saturation 0.85
    with blur 0.40 and sharpen 0.80, 800,000 give 0.95 with 0.30 and 0.50,
    and every count up to 500,000 (300,000 for one) gives saturation 1.00
    with the blur of radius 0.30 still in the filter chain. *)
Theorem artifact_tier_selection :
  (forall p, Settings_eq (selectSettings p) (Spec.artifactTier p)) /\
  ((saturationReduction (selectSettings 4000000) == 0.85)%Q /\
   (blurRadius (selectSettings 4000000) == 0.40)%Q /\
   (sharpenSigma (selectSettings 4000000) == 0.80)%Q) /\
  ((saturationReduction (selectSettings 800000) == 0.95)%Q /\
   (blurRadius (selectSettings 800000) == 0.30)%Q /\
   (sharpenSigma (selectSettings 800000) == 0.50)%Q) /\
  (forall p s,
      p <= 500000 ->
      (saturationReduction (selectSettings p) == 1.00)%Q /\
      (blurRadius (selectSettings p) == 0.30)%Q /\
      In (Blur (blurRadius (selectSettings p)))
         (calls (applyArtifactReduction s p))).
Proof.
  split.
  - intros p. unfold Spec.artifactTier, Spec.artifactRows, Spec.firstMatch,
      selectSettings, Thresholds.large, Thresholds.medium, Thresholds.small.
    destruct (p >? 3000000); [repeat split; reflexivity|].
    destruct (p >? 1000000); [repeat split; reflexivity|].
    destruct (p >? 500000); repeat split; reflexivity.
  - split; [repeat split; reflexivity|].
    split; [repeat split; reflexivity|].
    intros p s Hp.
    destruct (selectSettings_ranges p) as [[H _]|[[H _]|[[H _]|[_ E]]]]; try lia.
    rewrite calls_applyArtifactReduction, E.
    repeat split; try reflexivity.
    apply in_or_app; right; simpl; auto.
Qed.

Lemma artifact_tier_selection_witness :
  300000 <= 500000 /\
  (saturationReduction (selectSettings 300000) == 1.00)%Q /\
  (blurRadius (selectSettings 300000) == 0.30)%Q /\
  In (Blur (blurRadius (selectSettings 300000)))
     (calls (applyArtifactReduction (sharp Example.bytes false) 300000)).
Proof.
  split; [lia|].
  apply (proj2 (proj2 (proj2 artifact_tier_selection))
           300000 (sharp Example.bytes false)).
  lia.
Defined.

(** ** The AVIF tuning tiers *)

(** C6.  The AVIF parameters depend on the larger of width and height:
    above 2000 they are 4 x 4 tiles, quantizers 30 to 50, effort 3; above
    1000 they are 2 x 2, 28 to 48, effort 4; otherwise 1 x 1, 26 to 48,
    effort 4.  So for 5000 x 3000, 1500 x 900 and 640 x 480. *)
Theorem avif_tier_selection :
  forall width height,
    optimizeAvifParams width height = Spec.avifTier width height /\
    optimizeAvifParams width height
      = (if Z.max width height >? 2000 then Avif.mk 4 4 30 50 3
         else if Z.max width height >? 1000 then Avif.mk 2 2 28 48 4
         else Avif.mk 1 1 26 48 4) /\
    optimizeAvifParams 5000 3000 = Avif.mk 4 4 30 50 3 /\
    optimizeAvifParams 1500 900 = Avif.mk 2 2 28 48 4 /\
    optimizeAvifParams 640 480 = Avif.mk 1 1 26 48 4.
Proof.
  intros w h.
  assert (E : optimizeAvifParams w h
              = (if Z.max w h >? 2000 then Avif.mk 4 4 30 50 3
                 else if Z.max w h >? 1000 then Avif.mk 2 2 28 48 4
                 else Avif.mk 1 1 26 48 4)).
  { unfold optimizeAvifParams.
    destruct (Z.gtb_spec w 2000) as [Hw|Hw];
      destruct (Z.gtb_spec h 2000) as [Hh|Hh];
      destruct (Z.gtb_spec (Z.max w h) 2000) as [Hm|Hm]; simpl;
      try reflexivity; try lia;
      destruct (Z.gtb_spec w 1000) as [Hw'|Hw'];
      destruct (Z.gtb_spec h 1000) as [Hh'|Hh'];
      destruct (Z.gtb_spec (Z.max w h) 1000) as [Hm'|Hm']; simpl;
      try reflexivity; lia. }
  split; [rewrite E; reflexivity|].
  split; [exact E|].
  repeat split.
Qed.

(** ** The fixed sharpen pass *)

Lemma fixedSharpen_not_in_filterChain (s : Settings) :
  ~ In fixedSharpen (filterChain s).
Proof.
  destruct s; simpl; unfold fixedSharpen.
  intros [H|[H|[H|[H|[]]]]]; discriminate H.
Qed.

Lemma fixedSharpen_in_sharpenStage (m : Metadata) :
  In fixedSharpen (sharpenStage m) <->
  isAnimated m = false /\ pixelCount m > 500000.
Proof.
  unfold sharpenStage.
  destruct (isAnimated m); simpl.
  - split; [intros []|intros [H _]; discriminate H].
  - destruct (Z.gtb_spec (pixelCount m) 500000) as [Hp|Hp]; simpl.
    + split; [intros _; split; [reflexivity|lia]|auto].
    + split; [intros []|intros [_ H]; lia].
Qed.

Lemma fixedSharpen_in_pipeline (req : Req.params) (m : Metadata) (i : Buffer) :
  In fixedSharpen (calls (pipeline req m i)) <-> In fixedSharpen (sharpenStage m).
Proof.
  rewrite calls_pipeline, !in_app_iff.
  split; [|tauto].
  intros [H|[H|[H|[H|H]]]]; try assumption; exfalso.
  - unfold grayscaleStage in H. destruct (Req.grayscale req); simpl in H.
    + destruct H as [H|[]]; discriminate H.
    + destruct H.
  - unfold artifactStage in H.
    destruct (negb (isAnimated m) && _); [|destruct H].
    now apply fixedSharpen_not_in_filterChain in H.
  - unfold resizeStage in H.
    destruct (Format_eqb _ _ && _); simpl in H; [|destruct H].
    destruct H as [H|[]]; discriminate H.
  - destruct H as [H|[]]; discriminate H.
Qed.

(** C7.  The sharpen pass with sigma 1.0, flat 1.0 and jagged 0.5 is in
    the pipeline exactly when the image is not animated and has more than
    500,000 pixels; the requested format plays no part.  The same holds of
    the fallback pipeline. *)
Theorem fixed_sharpen_iff_static_and_large :
  forall req m input,
    fixedSharpen = Sharpen 1.0%Q (Some 1.0%Q) (Some 0.5%Q) /\
    (In fixedSharpen (calls (pipeline req m input)) <->
     isAnimated m = false /\ pixelCount m > 500000) /\
    (In fixedSharpen (calls (fallback req m (pipeline req m input))) <->
     isAnimated m = false /\ pixelCount m > 500000).
Proof.
  intros req m input.
  split; [reflexivity|].
  split.
  - rewrite fixedSharpen_in_pipeline. apply fixedSharpen_in_sharpenStage.
  - rewrite calls_fallback, in_app_iff.
    rewrite fixedSharpen_in_pipeline, fixedSharpen_in_sharpenStage.
    split; [|tauto].
    intros [H|[H|[]]]; [exact H|discriminate H].
Qed.

(** ** The response metadata *)

Lemma or_number_some (n : Z) : JS.or_number (Some n) 0 = n.
Proof. unfold JS.or_number. destruct (Z.eqb_spec n 0); congruence. Qed.

(** C8.  The bytes-saved value written by [sendImage] is
    max(originSize - encodedSize, 0), so it is never negative; an origin
    of 1000 bytes encoded to 1500 gives 0.  A missing origin size counts
    as 0. *)
Theorem bytes_saved_never_negative :
  forall pathname encodeURIComponent data imgFormat url originSize encodedSize,
    bytesSaved (Some originSize) encodedSize = Z.max (originSize - encodedSize) 0 /\
    bytesSaved None encodedSize = Z.max (0 - encodedSize) 0 /\
    0 <= bytesSaved (Some originSize) encodedSize /\
    bytesSaved (Some 1000) 1500 = 0 /\
    match sendImage pathname encodeURIComponent data imgFormat url
                    (Some originSize) encodedSize with
    | Ok r => bytesSavedHeader r = Z.max (originSize - encodedSize) 0
    | Throw _ => True
    end.
Proof.
  intros pathname encodeURIComponent data imgFormat url originSize encodedSize.
  assert (E : bytesSaved (Some originSize) encodedSize
              = Z.max (originSize - encodedSize) 0)
    by (unfold bytesSaved; now rewrite or_number_some).
  split; [exact E|].
  split; [reflexivity|].
  split; [rewrite E; lia|].
  split; [reflexivity|].
  unfold sendImage.
  destruct (pathname url) as [p|]; [|exact I].
  destruct (encodeURIComponent _) as [name|]; [|exact I].
  simpl. exact E.
Qed.

(** ** Determinism of the plan *)

Lemma plan_pipeline (req : Req.params) (m : Metadata) (i : Buffer) :
  plan (pipeline req m i)
  = (isAnimated m,
     (grayscaleStage req ++ artifactStage req m ++ sharpenStage m
        ++ resizeStage req m
        ++ [ToFormat (outputFormat req m) (formatOptions req m)])%list).
Proof. unfold plan. now rewrite animated_pipeline, calls_pipeline. Qed.

Lemma plan_fallback (req : Req.params) (m : Metadata) (s s' : Sharp) :
  plan s = plan s' -> plan (fallback req m s) = plan (fallback req m s').
Proof.
  unfold plan, fallback, call; simpl. intros H. injection H as Ha Hc.
  now rewrite Ha, Hc.
Qed.

(** C9.  The plan handed to the encoder is a function of the image
    information (width, height, page count) and of the request alone: two
    invocations that agree on them build the same pipeline, and their
    attempts carry the same plans one by one, whatever the image bytes,
    the state of the response and the answers of the codec are. *)
Theorem plan_is_deterministic :
  forall metadata1 toBuffer1 pathname1 encodeURIComponent1 headersSent1 input1
         metadata2 toBuffer2 pathname2 encodeURIComponent2 headersSent2 input2
         req m,
    metadata1 input1 = Ok m ->
    metadata2 input2 = Ok m ->
    plan (pipeline req m input1) = plan (pipeline req m input2) /\
    forall i s1 s2,
      nth_error (attempts metadata1 toBuffer1 pathname1 encodeURIComponent1
                          req headersSent1 input1) i = Some s1 ->
      nth_error (attempts metadata2 toBuffer2 pathname2 encodeURIComponent2
                          req headersSent2 input2) i = Some s2 ->
      plan s1 = plan s2.
Proof.
  intros metadata1 toBuffer1 pathname1 encodeURIComponent1 headersSent1 input1
         metadata2 toBuffer2 pathname2 encodeURIComponent2 headersSent2 input2
         req m Hm1 Hm2.
  assert (P : plan (pipeline req m input1) = plan (pipeline req m input2))
    by now rewrite !plan_pipeline.
  split; [exact P|].
  intros i s1 s2 H1 H2. unfold attempts in H1, H2.
  pose proof (run_attempts_shape metadata1 toBuffer1 pathname1 encodeURIComponent1
                req headersSent1 input1 m Hm1) as S1.
  pose proof (run_attempts_shape metadata2 toBuffer2 pathname2 encodeURIComponent2
                req headersSent2 input2 m Hm2) as S2.
  destruct S1 as [S1|S1], S2 as [S2|S2]; rewrite S1 in H1; rewrite S2 in H2;
    destruct i as [|[|i]]; simpl in H1, H2;
    try discriminate; try (destruct i; discriminate);
    injection H1 as <-; injection H2 as <-;
    auto using plan_fallback.
Qed.

Lemma plan_is_deterministic_witness :
  (Example.metadataOf Example.megapixel Example.bytes = Ok Example.megapixel /\
   Example.metadataOf Example.megapixel [] = Ok Example.megapixel) /\
  plan (fallback Example.request Example.megapixel
          (pipeline Example.request Example.megapixel Example.bytes))
  = plan (fallback Example.request Example.megapixel
            (pipeline Example.request Example.megapixel [])).
Proof.
  split; [split; reflexivity|].
  apply (proj2 (plan_is_deterministic
                  (Example.metadataOf Example.megapixel) Example.heifRejects
                  Example.pathnameOf Example.encodeURIComponent false Example.bytes
                  (Example.metadataOf Example.megapixel) Example.alwaysTooLarge
                  (fun _ => Throw Example.otherError) Example.encodeURIComponent
                  true []
                  Example.request Example.megapixel eq_refl eq_refl) 1%nat);
    reflexivity.
Defined.

(** ** The unused denoise strength *)

(** C10.  The artifact-reduction stage adds exactly four calls to the
    instance: saturation modulation, blur, sharpen and gamma, with the
    saturation, blur radius and sharpen sigma of the selected settings.
    The denoise strength reaches none of them: settings that differ in it
    alone give the same calls. *)
Theorem denoise_strength_is_unused :
  forall pixelCount s t d,
    calls (applyArtifactReduction s pixelCount)
      = (calls s ++
         [ Modulate (saturationReduction (selectSettings pixelCount));
           Blur (blurRadius (selectSettings pixelCount));
           Sharpen (sharpenSigma (selectSettings pixelCount)) None None;
           Gamma ])%list /\
    filterChain (mkSettings (blurRadius t) d (sharpenSigma t) (saturationReduction t))
      = filterChain t /\
    fold_left call
      (filterChain (mkSettings (blurRadius t) d (sharpenSigma t) (saturationReduction t))) s
      = fold_left call (filterChain t) s.
Proof.
  intros p s t d.
  split.
  - rewrite calls_applyArtifactReduction.
    destruct (selectSettings p); reflexivity.
  - destruct t; split; reflexivity.
Qed.

(** * Further properties of [compress.js] *)

(** ** Substring search and path segments *)

Lemma prefix_iff (a s : string) :
  String.prefix a s = true <-> exists b, s = a ++ b.
Proof.
  revert s; induction a as [|c a IH]; intros s.
  - split; [intros _; now exists s|destruct s; reflexivity].
  - destruct s as [|c' s]; simpl.
    + split; [discriminate|intros [b Hb]; discriminate Hb].
    + destruct (ascii_dec c c') as [->|Hc].
      * rewrite IH. split; intros [b Hb]; exists b; simpl in *; congruence.
      * split; [discriminate|intros [b Hb]; simpl in Hb; congruence].
Qed.

Lemma includes_unfold (s sub : string) :
  JS.includes s sub =
  if String.prefix sub s then true
  else match s with
       | EmptyString => false
       | String _ s' => JS.includes s' sub
       end.
Proof. destruct s; reflexivity. Qed.

(** X1.  [message.includes(phrase)] is true exactly when the phrase occurs
    somewhere in the message; so the fallback test of the inner catch is a
    substring test, not a test on the whole message. *)
Theorem includes_iff_substring :
  forall s sub,
    JS.includes s sub = true <-> exists a b, s = a ++ sub ++ b.
Proof.
  intros s sub; split.
  - induction s as [|c s IH]; rewrite includes_unfold.
    + destruct (String.prefix sub EmptyString) eqn:P; [|discriminate].
      intros _. apply prefix_iff in P. destruct P as [b Hb].
      exists EmptyString, b. exact Hb.
    + destruct (String.prefix sub (String c s)) eqn:P.
      * intros _. apply prefix_iff in P. destruct P as [b Hb].
        exists EmptyString, b. exact Hb.
      * intros H. destruct (IH H) as [a [b Hab]].
        exists (String c a), b. simpl. now rewrite Hab.
  - intros [a [b ->]]. induction a as [|c a IH]; rewrite includes_unfold.
    + assert (P : String.prefix sub (EmptyString ++ sub ++ b) = true)
        by (apply prefix_iff; now exists b).
      now rewrite P.
    + destruct (String.prefix sub (String c a ++ sub ++ b)); [reflexivity|].
      exact IH.
Qed.

Lemma split_not_nil (c : ascii) (s : string) : JS.split c s <> [].
Proof.
  destruct s as [|a s]; simpl; [discriminate|].
  destruct (Ascii.eqb a c); [discriminate|].
  destruct (JS.split c s); discriminate.
Qed.

(** X2.  Splitting a path at a separator and joining the pieces with the
    separator gives the path back, and the split is never empty: the
    [pop()] of [sendImage] always finds a segment, so only an empty last
    segment leads to the default name. *)
Theorem split_join_roundtrip :
  forall c s,
    String.concat (String c EmptyString) (JS.split c s) = s /\
    exists seg, JS.pop (JS.split c s) = Some seg.
Proof.
  intros c s; split.
  - induction s as [|a s IH]; [reflexivity|].
    simpl JS.split. destruct (Ascii.eqb_spec a c) as [->|Hac].
    + pose proof (split_not_nil c s) as Hne.
      destruct (JS.split c s) as [|x xs]; [contradiction|].
      change (String.concat (String c EmptyString) (EmptyString :: x :: xs))
        with (String c (String.concat (String c EmptyString) (x :: xs))).
      now rewrite IH.
    + pose proof (split_not_nil c s) as Hne.
      destruct (JS.split c s) as [|x xs]; [contradiction|].
      destruct xs as [|y ys]; simpl in *; now rewrite <- IH.
  - pose proof (split_not_nil c s) as Hne.
    induction (JS.split c s) as [|x xs IH]; [contradiction|].
    destruct xs as [|y ys]; [now exists x|].
    destruct IH as [seg Hseg]; [discriminate|].
    exists seg. exact Hseg.
Qed.

Lemma split_without_separator (c : ascii) (seg : string) :
  JS.includes seg (String c EmptyString) = false -> JS.split c seg = [seg].
Proof.
  induction seg as [|a seg IH]; [reflexivity|].
  rewrite includes_unfold. simpl String.prefix.
  destruct (ascii_dec c a) as [->|Hca].
  - destruct seg; discriminate.
  - intros H. simpl JS.split.
    destruct (Ascii.eqb_spec a c) as [->|_]; [contradiction|].
    now rewrite (IH H).
Qed.

Lemma pop_cons (x y : string) (l : list string) :
  JS.pop (x :: y :: l) = JS.pop (y :: l).
Proof. reflexivity. Qed.

Lemma split_last_segment (c : ascii) (dir seg : string) :
  JS.includes seg (String c EmptyString) = false ->
  exists x y l,
    JS.split c (dir ++ String c seg) = x :: y :: l /\
    JS.pop (y :: l) = Some seg.
Proof.
  intros Hseg. induction dir as [|a dir IH].
  - exists EmptyString, seg, []. simpl.
    rewrite Ascii.eqb_refl, (split_without_separator c seg Hseg). now split.
  - destruct IH as [x [y [l [E P]]]]. simpl.
    rewrite E. destruct (Ascii.eqb a c).
    + exists EmptyString, x, (y :: l). split; [reflexivity|exact P].
    + exists (String a x), y, l. now split.
Qed.

Lemma fileStem_last_segment (dir seg : string) :
  JS.includes seg "/" = false ->
  fileStem (dir ++ "/" ++ seg)
  = match seg with EmptyString => "image" | _ => seg end.
Proof.
  intros Hseg. unfold fileStem.
  destruct (split_last_segment "/" dir seg Hseg) as [x [y [l [E P]]]].
  change (dir ++ "/" ++ seg) with (dir ++ String "/" seg).
  rewrite E, pop_cons, P. destruct seg; reflexivity.
Qed.

(** ** The response of [sendImage] *)

Lemma sendImage_ok_inv pathname encodeURIComponent data imgFormat url originSize
      compressedSize r :
  sendImage pathname encodeURIComponent data imgFormat url originSize compressedSize
    = Ok r ->
  exists p name,
    pathname url = Ok p /\
    encodeURIComponent (fileStem p) = Ok name /\
    r = {| contentType := "image/" ++ formatName imgFormat;
           contentLength := Z.of_nat (List.length data);
           contentDisposition :=
             "inline; filename=" ++ dquote
               ++ (name ++ "." ++ formatName imgFormat) ++ dquote;
           originalSize := JS.or_number originSize 0;
           bytesSavedHeader := bytesSaved originSize compressedSize;
           status := 200;
           body := data |}.
Proof.
  unfold sendImage, fileStem.
  destruct (pathname url) as [p|e]; [|discriminate].
  destruct (encodeURIComponent _) as [name|e] eqn:E; [|discriminate].
  intros H. injection H as <-. exists p, name. auto.
Qed.

(** X3.  The file name of the response is the encoded last segment of the
    URL's path followed by a dot and the format name; when the path ends
    with a slash the segment is empty and the name ['image'] is used. *)
Theorem sendImage_names_the_last_segment :
  forall pathname encodeURIComponent data imgFormat url originSize compressedSize
         dir seg name,
    pathname url = Ok (dir ++ "/" ++ seg) ->
    JS.includes seg "/" = false ->
    encodeURIComponent (match seg with EmptyString => "image" | _ => seg end)
      = Ok name ->
    exists r,
      sendImage pathname encodeURIComponent data imgFormat url originSize
                compressedSize = Ok r /\
      contentDisposition r
        = "inline; filename=" ++ dquote
            ++ (name ++ "." ++ formatName imgFormat) ++ dquote.
Proof.
  intros pathname encodeURIComponent data imgFormat url originSize compressedSize
         dir seg name Hp Hseg Hname.
  pose proof (fileStem_last_segment dir seg Hseg) as Hstem.
  unfold fileStem in Hstem. unfold sendImage.
  rewrite Hp, Hstem, Hname. eexists; split; reflexivity.
Qed.

Lemma sendImage_names_the_last_segment_witness :
  (Example.pathnameOf (Req.url Example.request) = Ok ("/photos" ++ "/" ++ "cat.png") /\
   JS.includes "cat.png" "/" = false /\
   Example.encodeURIComponent "cat.png" = Ok "cat.png") /\
  exists r,
    sendImage Example.pathnameOf Example.encodeURIComponent
              (data Example.encoded) JPEG (Req.url Example.request)
              (Some 1000) 1500 = Ok r /\
    contentDisposition r
      = "inline; filename=" ++ dquote ++ ("cat.png" ++ "." ++ formatName JPEG) ++ dquote.
Proof.
  split; [repeat split; reflexivity|].
  apply (sendImage_names_the_last_segment
           Example.pathnameOf Example.encodeURIComponent
           (data Example.encoded) JPEG (Req.url Example.request) (Some 1000) 1500
           "/photos" "cat.png" "cat.png"); reflexivity.
Defined.

(** X4.  For non-negative sizes the headers of a response are consistent:
    the bytes saved lie between 0 and the original size, and saved plus
    encoded bytes cover the original size.  Without an origin size both
    headers are 0. *)
Theorem response_sizes_are_consistent :
  forall pathname encodeURIComponent data imgFormat url originSize compressedSize r,
    0 <= compressedSize ->
    (forall n, originSize = Some n -> 0 <= n) ->
    sendImage pathname encodeURIComponent data imgFormat url originSize
              compressedSize = Ok r ->
    0 <= bytesSavedHeader r <= originalSize r /\
    originalSize r <= bytesSavedHeader r + compressedSize /\
    (originSize = None -> originalSize r = 0 /\ bytesSavedHeader r = 0) /\
    contentLength r = Z.of_nat (List.length (body r)) /\
    status r = 200.
Proof.
  intros pathname encodeURIComponent data imgFormat url originSize compressedSize r
         Hc Ho Hr.
  apply sendImage_ok_inv in Hr. destruct Hr as [p [name [_ [_ ->]]]]. simpl.
  unfold bytesSaved.
  destruct originSize as [n|].
  - rewrite or_number_some. specialize (Ho n eq_refl).
    repeat split; try lia; discriminate.
  - simpl. repeat split; lia.
Qed.

Lemma response_sizes_are_consistent_witness :
  (0 <= 1500 /\ (forall n, Some 1000 = Some n -> 0 <= n)) /\
  exists r,
    sendImage Example.pathnameOf Example.encodeURIComponent
              (data Example.encoded) JPEG (Req.url Example.request)
              (Some 1000) 1500 = Ok r /\
    0 <= bytesSavedHeader r <= originalSize r.
Proof.
  split; [split; [lia|intros n H; injection H as <-; lia]|].
  eexists; split; [reflexivity|].
  apply (response_sizes_are_consistent
           Example.pathnameOf Example.encodeURIComponent
           (data Example.encoded) JPEG (Req.url Example.request) (Some 1000) 1500);
    [lia|intros n H; injection H as <-; lia|reflexivity].
Defined.

(** ** The paths through [compress] *)

Section Paths.

Variable metadata : Buffer -> Result Metadata.
Variable toBuffer : Sharp -> Result Encoded.
Variable pathname : string -> Result string.
Variable encodeURIComponent : string -> Result string.
Variable req : Req.params.
Variable headersSent : bool.
Variable input : Buffer.

Local Abbreviation theRun :=
  (run metadata toBuffer pathname encodeURIComponent req headersSent input).

Local Abbreviation send out imgFormat :=
  (sendImage pathname encodeURIComponent (data out) imgFormat (Req.url req)
             (Req.originSize req) (size out)).

Ltac unfold_run :=
  unfold run, attempts, compress, fallbackEncode, tryCatch, bind, lift,
    awaitToBuffer, ret, throw.

Ltac each_path :=
  repeat (simpl;
          match goal with
          | |- context [match metadata ?i with _ => _ end] =>
              destruct (metadata i) eqn:?
          | |- context [match toBuffer ?s with _ => _ end] =>
              destruct (toBuffer s) eqn:?
          | |- context [if headersSent then _ else _] =>
              destruct headersSent eqn:?
          | |- context [match sendImage ?a ?b ?c ?d ?e ?f ?g with _ => _ end] =>
              destruct (sendImage a b c d e f g) eqn:?
          | |- context [if JS.includes ?e ?h then _ else _] =>
              destruct (JS.includes e h) eqn:?
          end).

(** A response is sent only for an encode that succeeded, and it is the
    last one attempted. *)
Lemma run_sent_inv (r : Response) :
  fst theRun = Ok (Sent r) ->
  exists m pre s out imgFormat,
    metadata input = Ok m /\
    snd theRun = (pre ++ [s])%list /\
    (pre = [] /\ s = pipeline req m input /\ imgFormat = outputFormat req m \/
     pre = [pipeline req m input] /\ s = fallback req m (pipeline req m input)
       /\ imgFormat = fallbackFormat m) /\
    toBuffer s = Ok out /\
    send out imgFormat = Ok r.
Proof.
  unfold_run.
  destruct (metadata input) as [m|e0] eqn:Hm; [|discriminate]. cbv zeta.
  each_path; intros H; try discriminate H; injection H as <-; exists m;
    first
      [ solve [ exists [], (pipeline req m input); do 2 eexists;
                split; [reflexivity|]; split; [reflexivity|];
                split; [left; auto|]; split; eassumption ]
      | solve [ exists [pipeline req m input],
                       (fallback req m (pipeline req m input));
                do 2 eexists;
                split; [reflexivity|]; split; [reflexivity|];
                split; [right; auto|]; split; eassumption ] ].
Qed.

End Paths.

(** X5.  When the metadata of the input cannot be read the request is
    redirected to the origin and the encoder is never called. *)
Theorem decode_failure_makes_no_attempt :
  forall metadata toBuffer pathname encodeURIComponent req headersSent bytes e,
    metadata bytes = Throw e ->
    run metadata toBuffer pathname encodeURIComponent req headersSent bytes
    = (Ok Redirected, []).
Proof.
  intros metadata toBuffer pathname encodeURIComponent req headersSent bytes e Hm.
  unfold run, compress, tryCatch, bind, lift, ret. now rewrite Hm.
Qed.

(** X6.  When the response headers have already been sent by the time the
    first encode resolves, the encoded image is discarded: nothing is
    sent, the request is not redirected, and no second encode is made. *)
Theorem headers_sent_drops_the_image :
  forall metadata toBuffer pathname encodeURIComponent req bytes m out,
    metadata bytes = Ok m ->
    toBuffer (pipeline req m bytes) = Ok out ->
    run metadata toBuffer pathname encodeURIComponent req true bytes
    = (Ok Dropped, [pipeline req m bytes]).
Proof.
  intros metadata toBuffer pathname encodeURIComponent req bytes m out Hm Ho.
  unfold run, compress, tryCatch, bind, lift, awaitToBuffer, ret.
  rewrite Hm. cbv zeta. now rewrite Ho.
Qed.

(** X7.  The inner [catch] also covers [sendImage]: when the encode
    succeeds but the URL cannot be parsed, the encoded image is thrown
    away and the request is redirected, with no second encode. *)
Theorem invalid_url_redirects_after_encoding :
  forall metadata toBuffer pathname encodeURIComponent req bytes m out e,
    metadata bytes = Ok m ->
    toBuffer (pipeline req m bytes) = Ok out ->
    pathname (Req.url req) = Throw e ->
    JS.includes e HEIF_MESSAGE = false ->
    run metadata toBuffer pathname encodeURIComponent req false bytes
    = (Ok Redirected, [pipeline req m bytes]).
Proof.
  intros metadata toBuffer pathname encodeURIComponent req bytes m out e
         Hm Ho Hp Hc.
  unfold run, compress, tryCatch, bind, lift, awaitToBuffer, ret, throw.
  rewrite Hm. cbv zeta. rewrite Ho. unfold sendImage. rewrite Hp.
  simpl. now rewrite Hc.
Qed.

(** X8.  A response that is sent belongs to the last encode attempted,
    which succeeded: its body is the data of that encode, its content type
    names the format that encode was made in, its content length is the
    length of the body and its bytes-saved header is computed from the
    size the encoder reported. *)
Theorem sent_response_matches_last_attempt :
  forall metadata toBuffer pathname encodeURIComponent req headersSent bytes r,
    fst (run metadata toBuffer pathname encodeURIComponent req headersSent bytes)
      = Ok (Sent r) ->
    exists pre s out imgFormat options,
      attempts metadata toBuffer pathname encodeURIComponent req headersSent bytes
        = (pre ++ [s])%list /\
      toBuffer s = Ok out /\
      formatOut s = Some (imgFormat, options) /\
      contentType r = "image/" ++ formatName imgFormat /\
      body r = data out /\
      contentLength r = Z.of_nat (List.length (data out)) /\
      bytesSavedHeader r = bytesSaved (Req.originSize req) (size out) /\
      status r = 200.
Proof.
  intros metadata toBuffer pathname encodeURIComponent req headersSent bytes r H.
  destruct (run_sent_inv _ _ _ _ _ _ _ r H)
    as [m [pre [s [out [f [_ [Hlog [Hs [Ho Hr]]]]]]]]].
  apply sendImage_ok_inv in Hr. destruct Hr as [p [name [_ [_ ->]]]].
  destruct Hs as [[-> [-> ->]]|[-> [-> ->]]].
  - exists [], (pipeline req m bytes), out, (outputFormat req m),
      (formatOptions req m).
    split; [exact Hlog|]. split; [exact Ho|].
    split; [|repeat split].
    unfold formatOut. rewrite calls_pipeline, !lastFormat_app. reflexivity.
  - exists [pipeline req m bytes], (fallback req m (pipeline req m bytes)), out,
      (fallbackFormat m), (fallbackOptions req).
    split; [exact Hlog|]. split; [exact Ho|].
    split; [|repeat split].
    unfold fallback. apply formatOut_call_toFormat.
Qed.

(** X9.  A second encode is made only after an error whose message
    contains the HEIF phrase was caught by the inner [catch], thrown by the
    first encode or by [sendImage] after it. *)
Theorem second_attempt_needs_the_heif_phrase :
  forall metadata toBuffer pathname encodeURIComponent req headersSent bytes,
    List.length
      (attempts metadata toBuffer pathname encodeURIComponent req headersSent bytes)
      = 2%nat ->
    exists m e,
      metadata bytes = Ok m /\
      JS.includes e HEIF_MESSAGE = true /\
      (toBuffer (pipeline req m bytes) = Throw e \/
       exists out,
         toBuffer (pipeline req m bytes) = Ok out /\
         headersSent = false /\
         sendImage pathname encodeURIComponent (data out) (outputFormat req m)
                   (Req.url req) (Req.originSize req) (size out) = Throw e).
Proof.
  intros metadata toBuffer pathname encodeURIComponent req headersSent bytes.
  unfold attempts, run, compress, fallbackEncode, tryCatch, bind, lift,
    awaitToBuffer, ret, throw.
  destruct (metadata bytes) as [m|e0] eqn:Hm; [|discriminate]. cbv zeta.
  destruct (toBuffer (pipeline req m bytes)) as [out|e] eqn:Ho; simpl.
  - destruct headersSent eqn:Hs; simpl; [discriminate|].
    destruct (sendImage _ _ _ _ _ _ _) as [r|e] eqn:Hr; simpl; [discriminate|].
    destruct (JS.includes e HEIF_MESSAGE) eqn:Hc; simpl; [|discriminate].
    intros _. exists m, e. split; [reflexivity|]. split; [exact Hc|].
    right. exists out. auto.
  - destruct (JS.includes e HEIF_MESSAGE) eqn:Hc; simpl; [|discriminate].
    intros _. exists m, e. auto.
Qed.

(** X10.  The second encode is always the fallback of the first pipeline:
    its format is JPEG or WEBP, never AVIF, and its options carry the
    quality of the request and nothing else. *)
Theorem second_attempt_is_never_avif :
  forall metadata toBuffer pathname encodeURIComponent req headersSent bytes s,
    nth_error
      (attempts metadata toBuffer pathname encodeURIComponent req headersSent bytes)
      1 = Some s ->
    exists m imgFormat,
      metadata bytes = Ok m /\
      s = fallback req m (pipeline req m bytes) /\
      formatOut s = Some (imgFormat, fallbackOptions req) /\
      (imgFormat = JPEG \/ imgFormat = WEBP) /\
      Fmt.quality (fallbackOptions req) = Some (Req.quality req) /\
      Fmt.effort (fallbackOptions req) = None /\
      Fmt.tileRows (fallbackOptions req) = None.
Proof.
  intros metadata toBuffer pathname encodeURIComponent req headersSent bytes s H.
  unfold attempts in H.
  destruct (metadata bytes) as [m|e] eqn:Hm.
  - exists m, (fallbackFormat m). split; [reflexivity|].
    assert (Hs : s = fallback req m (pipeline req m bytes)).
    { destruct (run_attempts_shape metadata toBuffer pathname encodeURIComponent
                  req headersSent bytes m Hm) as [E|E];
        rewrite E in H; simpl in H; [discriminate|congruence]. }
    split; [exact Hs|]. subst s.
    split; [apply formatOut_call_toFormat|].
    split; [unfold fallbackFormat; destruct (isAnimated m); auto|].
    repeat split.
  - rewrite (run_decode_failure metadata toBuffer pathname encodeURIComponent
               req headersSent bytes e Hm) in H.
    discriminate H.
Qed.


Lemma decode_failure_makes_no_attempt_witness :
  Example.corrupt Example.bytes = Throw Example.otherError /\
  run Example.corrupt Example.alwaysEncodes Example.pathnameOf
      Example.encodeURIComponent Example.request false Example.bytes
  = (Ok Redirected, []).
Proof.
  split; [reflexivity|].
  apply (decode_failure_makes_no_attempt
           Example.corrupt Example.alwaysEncodes Example.pathnameOf
           Example.encodeURIComponent Example.request false Example.bytes
           Example.otherError).
  reflexivity.
Defined.

Lemma headers_sent_drops_the_image_witness :
  (Example.metadataOf Example.thumbnail Example.bytes = Ok Example.thumbnail /\
   Example.alwaysEncodes (pipeline Example.request Example.thumbnail Example.bytes)
     = Ok Example.encoded) /\
  run (Example.metadataOf Example.thumbnail) Example.alwaysEncodes
      Example.pathnameOf Example.encodeURIComponent
      Example.request true Example.bytes
  = (Ok Dropped, [pipeline Example.request Example.thumbnail Example.bytes]).
Proof.
  split; [split; reflexivity|].
  apply (headers_sent_drops_the_image
           (Example.metadataOf Example.thumbnail) Example.alwaysEncodes
           Example.pathnameOf Example.encodeURIComponent
           Example.request Example.bytes
           Example.thumbnail Example.encoded); reflexivity.
Defined.

Lemma invalid_url_redirects_after_encoding_witness :
  (Example.alwaysEncodes (pipeline Example.request Example.thumbnail Example.bytes)
     = Ok Example.encoded /\
   Example.invalidUrl (Req.url Example.request) = Throw "Invalid URL" /\
   JS.includes "Invalid URL" HEIF_MESSAGE = false) /\
  run (Example.metadataOf Example.thumbnail) Example.alwaysEncodes
      Example.invalidUrl Example.encodeURIComponent
      Example.request false Example.bytes
  = (Ok Redirected, [pipeline Example.request Example.thumbnail Example.bytes]).
Proof.
  split; [repeat split; reflexivity|].
  apply (invalid_url_redirects_after_encoding
           (Example.metadataOf Example.thumbnail) Example.alwaysEncodes
           Example.invalidUrl Example.encodeURIComponent
           Example.request Example.bytes
           Example.thumbnail Example.encoded "Invalid URL"); reflexivity.
Defined.

Lemma sent_response_matches_last_attempt_witness :
  exists r,
    fst (run (Example.metadataOf Example.megapixel) Example.heifRejects
             Example.pathnameOf Example.encodeURIComponent
             Example.request false Example.bytes) = Ok (Sent r) /\
    exists pre s out imgFormat options,
      snd (run (Example.metadataOf Example.megapixel) Example.heifRejects
               Example.pathnameOf Example.encodeURIComponent
               Example.request false Example.bytes) = (pre ++ [s])%list /\
      Example.heifRejects s = Ok out /\
      formatOut s = Some (imgFormat, options) /\
      contentType r = "image/" ++ formatName imgFormat /\
      body r = data out /\
      contentLength r = Z.of_nat (List.length (data out)) /\
      bytesSavedHeader r = bytesSaved (Req.originSize Example.request) (size out) /\
      status r = 200.
Proof.
  eexists. split; [reflexivity|].
  apply (sent_response_matches_last_attempt
           (Example.metadataOf Example.megapixel) Example.heifRejects
           Example.pathnameOf Example.encodeURIComponent
           Example.request false Example.bytes).
  reflexivity.
Defined.

Lemma second_attempt_needs_the_heif_phrase_witness :
  List.length
    (snd (run (Example.metadataOf Example.megapixel) Example.heifRejects
              Example.pathnameOf Example.encodeURIComponent
              Example.request false Example.bytes)) = 2%nat /\
  exists m e,
    Example.metadataOf Example.megapixel Example.bytes = Ok m /\
    JS.includes e HEIF_MESSAGE = true /\
    (Example.heifRejects (pipeline Example.request m Example.bytes) = Throw e \/
     exists out,
       Example.heifRejects (pipeline Example.request m Example.bytes) = Ok out /\
       false = false /\
       sendImage Example.pathnameOf Example.encodeURIComponent (data out)
                 (outputFormat Example.request m) (Req.url Example.request)
                 (Req.originSize Example.request) (size out) = Throw e).
Proof.
  split; [reflexivity|].
  apply (second_attempt_needs_the_heif_phrase
           (Example.metadataOf Example.megapixel) Example.heifRejects
           Example.pathnameOf Example.encodeURIComponent
           Example.request false Example.bytes).
  reflexivity.
Defined.

Lemma second_attempt_is_never_avif_witness :
  nth_error
    (snd (run (Example.metadataOf Example.megapixel) Example.heifRejects
              Example.pathnameOf Example.encodeURIComponent
              Example.request false Example.bytes)) 1
  = Some (fallback Example.request Example.megapixel
            (pipeline Example.request Example.megapixel Example.bytes)) /\
  exists m imgFormat,
    Example.metadataOf Example.megapixel Example.bytes = Ok m /\
    fallback Example.request Example.megapixel
      (pipeline Example.request Example.megapixel Example.bytes)
    = fallback Example.request m (pipeline Example.request m Example.bytes) /\
    formatOut (fallback Example.request Example.megapixel
                 (pipeline Example.request Example.megapixel Example.bytes))
    = Some (imgFormat, fallbackOptions Example.request) /\
    (imgFormat = JPEG \/ imgFormat = WEBP) /\
    Fmt.quality (fallbackOptions Example.request)
      = Some (Req.quality Example.request) /\
    Fmt.effort (fallbackOptions Example.request) = None /\
    Fmt.tileRows (fallbackOptions Example.request) = None.
Proof.
  split; [reflexivity|].
  apply (second_attempt_is_never_avif
           (Example.metadataOf Example.megapixel) Example.heifRejects
           Example.pathnameOf Example.encodeURIComponent
           Example.request false Example.bytes).
  reflexivity.
Defined.

(** X11.  Every attempt encodes the input bytes of the request, with the
    animated flag computed from the page count. *)
Theorem attempts_share_input_and_animation :
  forall metadata toBuffer pathname encodeURIComponent req headersSent bytes m s,
    metadata bytes = Ok m ->
    In s (attempts metadata toBuffer pathname encodeURIComponent
                   req headersSent bytes) ->
    input s = bytes /\ animated s = isAnimated m.
Proof.
  intros metadata toBuffer pathname encodeURIComponent req headersSent bytes m s
         Hm Hin.
  unfold attempts in Hin.
  assert (Hs : s = pipeline req m bytes \/ s = fallback req m (pipeline req m bytes)).
  { destruct (run_attempts_shape metadata toBuffer pathname encodeURIComponent
                req headersSent bytes m Hm) as [E|E];
      rewrite E in Hin; simpl in Hin; intuition auto. }
  destruct Hs as [->| ->];
    (split; [exact (input_pipeline req m bytes)|exact (animated_pipeline req m bytes)]).
Qed.

Lemma attempts_share_input_and_animation_witness :
  (Example.metadataOf Example.gif Example.bytes = Ok Example.gif /\
   In (pipeline Example.request Example.gif Example.bytes)
      (attempts (Example.metadataOf Example.gif) Example.alwaysEncodes
                Example.pathnameOf Example.encodeURIComponent
                Example.request false Example.bytes)) /\
  input (pipeline Example.request Example.gif Example.bytes) = Example.bytes /\
  animated (pipeline Example.request Example.gif Example.bytes)
    = isAnimated Example.gif.
Proof.
  split; [split; [reflexivity|left; reflexivity]|].
  apply (attempts_share_input_and_animation
           (Example.metadataOf Example.gif) Example.alwaysEncodes
           Example.pathnameOf Example.encodeURIComponent
           Example.request false Example.bytes Example.gif);
    [reflexivity|left; reflexivity].
Defined.



(** ** The tiers as functions of the image size *)

Lemma optimizeAvifParams_ranges (w h : Z) :
  (2000 < Z.max w h /\ optimizeAvifParams w h = Avif.mk 4 4 30 50 3) \/
  (1000 < Z.max w h <= 2000 /\ optimizeAvifParams w h = Avif.mk 2 2 28 48 4) \/
  (Z.max w h <= 1000 /\ optimizeAvifParams w h = Avif.mk 1 1 26 48 4).
Proof.
  unfold optimizeAvifParams.
  destruct (Z.gtb_spec w 2000) as [Hw|Hw]; simpl;
    [left; split; [lia|reflexivity]|].
  destruct (Z.gtb_spec h 2000) as [Hh|Hh]; simpl;
    [left; split; [lia|reflexivity]|].
  destruct (Z.gtb_spec w 1000) as [Hw'|Hw']; simpl;
    [right; left; split; [lia|reflexivity]|].
  destruct (Z.gtb_spec h 1000) as [Hh'|Hh']; simpl;
    [right; left; split; [lia|reflexivity]|].
  right; right; split; [lia|reflexivity].
Qed.

(** X13.  The AVIF parameters are monotone in the image: an image that is
    at least as wide and as high never gets fewer tiles, a lower quantizer
    bound or a higher effort. *)
Theorem avif_params_monotone :
  forall w h w' h',
    w <= w' -> h <= h' ->
    let p := optimizeAvifParams w h in
    let p' := optimizeAvifParams w' h' in
    Avif.tileRows p <= Avif.tileRows p' /\
    Avif.tileCols p <= Avif.tileCols p' /\
    Avif.minQuantizer p <= Avif.minQuantizer p' /\
    Avif.maxQuantizer p <= Avif.maxQuantizer p' /\
    Avif.effort p' <= Avif.effort p.
Proof.
  intros w h w' h' Hw Hh p p'. unfold p, p'.
  destruct (optimizeAvifParams_ranges w h) as [[R ->]|[[R ->]|[R ->]]];
    destruct (optimizeAvifParams_ranges w' h') as [[R' ->]|[[R' ->]|[R' ->]]];
    simpl; try lia.
Qed.

Lemma avif_params_monotone_witness :
  (1500 <= 5000 /\ 900 <= 3000) /\
  Avif.tileRows (optimizeAvifParams 1500 900)
    <= Avif.tileRows (optimizeAvifParams 5000 3000) /\
  Avif.tileCols (optimizeAvifParams 1500 900)
    <= Avif.tileCols (optimizeAvifParams 5000 3000) /\
  Avif.minQuantizer (optimizeAvifParams 1500 900)
    <= Avif.minQuantizer (optimizeAvifParams 5000 3000) /\
  Avif.maxQuantizer (optimizeAvifParams 1500 900)
    <= Avif.maxQuantizer (optimizeAvifParams 5000 3000) /\
  Avif.effort (optimizeAvifParams 5000 3000)
    <= Avif.effort (optimizeAvifParams 1500 900).
Proof.
  split; [lia|].
  apply (avif_params_monotone 1500 900 5000 3000); lia.
Defined.

(** X14.  Whatever the dimensions, the AVIF parameters are well formed:
    the tiling is square with 1, 2 or 4 tiles a side, the lower quantizer
    is below the upper one, the effort is 3 or 4, and swapping width and
    height changes nothing. *)
Theorem avif_params_well_formed :
  forall w h,
    let p := optimizeAvifParams w h in
    Avif.tileRows p = Avif.tileCols p /\
    (Avif.tileRows p = 1 \/ Avif.tileRows p = 2 \/ Avif.tileRows p = 4) /\
    26 <= Avif.minQuantizer p < Avif.maxQuantizer p /\
    Avif.maxQuantizer p <= 50 /\
    (Avif.effort p = 3 \/ Avif.effort p = 4) /\
    optimizeAvifParams h w = p.
Proof.
  intros w h p. unfold p.
  destruct (optimizeAvifParams_ranges w h) as [[R ->]|[[R ->]|[R ->]]];
    destruct (optimizeAvifParams_ranges h w) as [[R' ->]|[[R' ->]|[R' ->]]];
    simpl; try lia; repeat split; auto; lia.
Qed.

(** X15.  The artifact-reduction settings are monotone in the pixel count:
    more pixels never mean less blur, a smaller sharpen sigma or more
    saturation; the blur radius stays within 0.3 and 0.4 and the
    saturation factor within 0.85 and 1. *)
Theorem artifact_settings_monotone :
  forall p p',
    p <= p' ->
    (blurRadius (selectSettings p) <= blurRadius (selectSettings p'))%Q /\
    (sharpenSigma (selectSettings p) <= sharpenSigma (selectSettings p'))%Q /\
    (saturationReduction (selectSettings p')
       <= saturationReduction (selectSettings p))%Q /\
    (0.3 <= blurRadius (selectSettings p) <= 0.4)%Q /\
    (0.85 <= saturationReduction (selectSettings p) <= 1)%Q.
Proof.
  intros p p' Hp.
  destruct (selectSettings_ranges p) as [[R ->]|[[R ->]|[[R ->]|[R ->]]]];
    destruct (selectSettings_ranges p') as [[R' ->]|[[R' ->]|[[R' ->]|[R' ->]]]];
    try lia; unfold Qle; simpl; lia.
Qed.

Lemma artifact_settings_monotone_witness :
  800000 <= 4000000 /\
  (blurRadius (selectSettings 800000) <= blurRadius (selectSettings 4000000))%Q /\
  (sharpenSigma (selectSettings 800000) <= sharpenSigma (selectSettings 4000000))%Q /\
  (saturationReduction (selectSettings 4000000)
     <= saturationReduction (selectSettings 800000))%Q /\
  (0.3 <= blurRadius (selectSettings 800000) <= 0.4)%Q /\
  (0.85 <= saturationReduction (selectSettings 800000) <= 1)%Q.
Proof.
  split; [lia|].
  apply (artifact_settings_monotone 800000 4000000). lia.
Defined.

(** ** The shape of the pipeline *)

(** X16.  A resize requested by the pipeline never enlarges: each side of
    the box is at most the side of the image and at most 16384, one side
    is exactly 16384, the fit mode is inside, and there is at most one
    resize. *)
Theorem resize_box_is_bounded :
  forall req m input w h fit,
    In (w, h, fit) (resizes (calls (pipeline req m input))) ->
    w <= width m /\ h <= height m /\
    w <= 16384 /\ h <= 16384 /\
    (w = 16384 \/ h = 16384) /\
    fit = "inside" /\
    resizes (calls (pipeline req m input)) = [(w, h, fit)].
Proof.
  intros req m input w h fit.
  rewrite resizes_pipeline, resizes_resizeStage.
  destruct (Format_eqb (outputFormat req m) AVIF); simpl; [|intros []].
  destruct (Z.gtb_spec (width m) 16384) as [Hw|Hw];
    destruct (Z.gtb_spec (height m) 16384) as [Hh|Hh]; simpl;
    intros Hin; try contradiction;
    destruct Hin as [Hin|[]]; injection Hin as <- <- <-;
    repeat split; lia.
Qed.

Lemma resize_box_is_bounded_witness :
  In (16384, 10000, "inside")
     (resizes (calls (pipeline Example.request Example.oversize Example.bytes))) /\
  16384 <= width Example.oversize /\ 10000 <= height Example.oversize /\
  16384 <= 16384 /\ 10000 <= 16384 /\
  (16384 = 16384 \/ 10000 = 16384) /\
  "inside" = "inside" /\
  resizes (calls (pipeline Example.request Example.oversize Example.bytes))
    = [(16384, 10000, "inside")].
Proof.
  split; [left; reflexivity|].
  apply (resize_box_is_bounded Example.request Example.oversize Example.bytes).
  left; reflexivity.
Defined.

(** X17.  An animated image is never filtered or resized: its pipeline is
    the optional grayscale followed by the WEBP encode with the requested
    quality, loop 0 and no AVIF tuning. *)
Theorem animated_pipeline_is_bare :
  forall req m input,
    isAnimated m = true ->
    calls (pipeline req m input)
    = ((if Req.grayscale req then [Grayscale] else []) ++
       [ToFormat WEBP
          {| Fmt.quality := Some (Req.quality req);
             Fmt.alphaQuality := Some 80;
             Fmt.smartSubsample := Some true;
             Fmt.chromaSubsampling := Some "4:2:0";
             Fmt.tileRows := None;
             Fmt.tileCols := None;
             Fmt.minQuantizer := None;
             Fmt.maxQuantizer := None;
             Fmt.effort := None;
             Fmt.loop := Some 0 |}])%list /\
    animated (pipeline req m input) = true.
Proof.
  intros req m input Ha.
  split; [|now rewrite animated_pipeline].
  rewrite calls_pipeline.
  unfold grayscaleStage, artifactStage, sharpenStage, resizeStage,
    formatOptions, outputFormat.
  rewrite Ha. reflexivity.
Qed.

Lemma animated_pipeline_is_bare_witness :
  isAnimated Example.gif = true /\
  animated (pipeline Example.grayRequest Example.gif Example.bytes) = true.
Proof.
  split; [reflexivity|].
  apply (animated_pipeline_is_bare Example.grayRequest Example.gif Example.bytes).
  reflexivity.
Defined.

Lemma static_format (req : Req.params) (m : Metadata) :
  isAnimated m = false ->
  outputFormat req m = (if Req.webp req then AVIF else JPEG).
Proof. intros Ha. unfold outputFormat, format. now rewrite Ha. Qed.

(** X18.  Every static image goes through the four artifact-reduction
    calls, whatever was requested (the format test around them always
    holds for a static image), followed by the fixed sharpen pass when it
    has more than 500,000 pixels; so such an image is sharpened twice and a
    smaller one once. *)
Theorem static_pipeline_is_always_filtered :
  forall req m input,
    isAnimated m = false ->
    filters (calls (pipeline req m input))
    = (filterChain (selectSettings (pixelCount m))
         ++ (if pixelCount m >? 500000 then [fixedSharpen] else []))%list /\
    sharpenCount (calls (pipeline req m input))
    = (if pixelCount m >? 500000 then 2%nat else 1%nat).
Proof.
  intros req m input Ha.
  assert (F : filters (calls (pipeline req m input))
              = (filterChain (selectSettings (pixelCount m))
                   ++ (if pixelCount m >? 500000 then [fixedSharpen] else []))%list).
  { rewrite filters_pipeline. unfold artifactStage, sharpenStage.
    rewrite (static_format req m Ha), Ha.
    destruct (Req.webp req); reflexivity. }
  split; [exact F|].
  unfold sharpenCount. rewrite calls_pipeline.
  unfold grayscaleStage, artifactStage, sharpenStage, resizeStage, heifResize.
  rewrite (static_format req m Ha), Ha.
  destruct (Req.grayscale req), (Req.webp req), (pixelCount m >? 500000),
    ((width m >? MAX_HEIF_DIMENSION) || (height m >? MAX_HEIF_DIMENSION)),
    (selectSettings (pixelCount m)); reflexivity.
Qed.

Lemma static_pipeline_is_always_filtered_witness :
  isAnimated Example.megapixel = false /\
  sharpenCount (calls (pipeline Example.grayRequest Example.megapixel Example.bytes))
  = (if pixelCount Example.megapixel >? 500000 then 2%nat else 1%nat).
Proof.
  split; [reflexivity|].
  apply (static_pipeline_is_always_filtered
           Example.grayRequest Example.megapixel Example.bytes).
  reflexivity.
Defined.

(** X19.  The options of the first encode: the quality of the request and
    alpha quality 80 always; the AVIF tuning of [optimizeAvifParams]
    exactly when the modern format was requested for a static image, and
    nothing in its place otherwise; loop 0 exactly for an animated image.
    AVIF tuning and loop are never set together. *)
Theorem first_encode_options :
  forall req m,
    let o := formatOptions req m in
    let p := optimizeAvifParams (width m) (height m) in
    Fmt.quality o = Some (Req.quality req) /\
    Fmt.alphaQuality o = Some 80 /\
    (Fmt.tileRows o, Fmt.tileCols o, Fmt.minQuantizer o, Fmt.maxQuantizer o,
     Fmt.effort o)
    = (if Req.webp req && negb (isAnimated m)
       then (Some (Avif.tileRows p), Some (Avif.tileCols p),
             Some (Avif.minQuantizer p), Some (Avif.maxQuantizer p),
             Some (Avif.effort p))
       else (None, None, None, None, None)) /\
    Fmt.loop o = (if isAnimated m then Some 0 else None) /\
    (Fmt.loop o = None \/ Fmt.effort o = None).
Proof.
  intros req m o p. unfold o, p, formatOptions, outputFormat, format.
  destruct (isAnimated m), (Req.webp req); simpl; repeat split; auto.
Qed.

Lemma not_in_filterChain_grayscale (s : Settings) : ~ In Grayscale (filterChain s).
Proof. destruct s; simpl. intros [H|[H|[H|[H|[]]]]]; discriminate H. Qed.

(** X20.  Grayscale, when requested, is the first call of the pipeline and
    occurs once; it is still the first call of the fallback pipeline.
    When it is not requested the pipeline has no grayscale call. *)
Theorem grayscale_comes_first :
  forall req m input,
    exists rest,
      calls (pipeline req m input)
        = ((if Req.grayscale req then [Grayscale] else []) ++ rest)%list /\
      ~ In Grayscale rest /\
      calls (fallback req m (pipeline req m input))
        = ((if Req.grayscale req then [Grayscale] else []) ++ rest
             ++ [ToFormat (fallbackFormat m) (fallbackOptions req)])%list.
Proof.
  intros req m input.
  exists (artifactStage req m ++ sharpenStage m ++ resizeStage req m
            ++ [ToFormat (outputFormat req m) (formatOptions req m)])%list.
  split; [apply calls_pipeline|]. split.
  - rewrite !in_app_iff.
    unfold artifactStage, sharpenStage, resizeStage, fixedSharpen, heifResize.
    intros [H|[H|[H|H]]].
    + destruct (negb (isAnimated m) && _); [|destruct H].
      now apply not_in_filterChain_grayscale in H.
    + destruct (negb (isAnimated m) && _); simpl in H; [|destruct H].
      destruct H as [H|[]]; discriminate H.
    + destruct (Format_eqb _ _ && _); simpl in H; [|destruct H].
      destruct H as [H|[]]; discriminate H.
    + destruct H as [H|[]]; discriminate H.
  - rewrite calls_fallback, calls_pipeline.
    unfold grayscaleStage. now rewrite <- !app_assoc.
Qed.

(** X21.  The URL and the origin size play no part in the encode: two
    requests with the same format flag, grayscale flag and quality build
    the same pipeline and the same fallback. *)
Theorem plan_ignores_url_and_origin_size :
  forall req req' m input s,
    Req.webp req = Req.webp req' ->
    Req.grayscale req = Req.grayscale req' ->
    Req.quality req = Req.quality req' ->
    pipeline req m input = pipeline req' m input /\
    fallback req m s = fallback req' m s.
Proof.
  intros [w g q o u] [w' g' q' o' u'] m input s; simpl.
  intros <- <- <-. split; reflexivity.
Qed.

Lemma plan_ignores_url_and_origin_size_witness :
  pipeline Example.request Example.megapixel Example.bytes
  = pipeline (Req.mk true false 80 None "https://example.org/other.png")
             Example.megapixel Example.bytes /\
  fallback Example.request Example.megapixel (sharp Example.bytes false)
  = fallback (Req.mk true false 80 None "https://example.org/other.png")
             Example.megapixel (sharp Example.bytes false).
Proof.
  apply (plan_ignores_url_and_origin_size
           Example.request
           (Req.mk true false 80 None "https://example.org/other.png")
           Example.megapixel Example.bytes (sharp Example.bytes false));
    reflexivity.
Defined.
